(** * VideoDownloader: the download orchestration of [VideoDownloader.py]

    A shallow embedding of the program's helpers ([human_size],
    [sanitize_filename], [force_mp4_name]), of the progress hook and the
    path resolution of [Downloader], of [worker] and of the event loop of
    [App], followed by the properties of the specification and by further
    properties of the code.

    Conventions of the embedding.
    - A Python [str] is the list of its Unicode code points ([list N]);
      literals are written [py "..."] and decoded from UTF-8.
    - A Python [int] is a [Z]; a Python [float] is a binary64 value of the
      Standard Library's IEEE 754 specification ([spec_float], precision 53,
      [emax] 1024), with its correctly rounded operations.
    - [os.path] and [pathlib] are the POSIX flavours.
    - Calls of [self.put] append to an explicit list of emitted events;
      raised exceptions are explicit results. *)

From Stdlib Require Import ZArith NArith Lia Floats.SpecFloat.
From stdpp Require Import gmap strings list.

Set Default Proof Using "Type".

(** ** Python strings *)

Abbreviation str := (list N).

Module Str.

(** Code points of a UTF-8 byte sequence (well-formed input assumed;
    a truncated sequence ends the decoding). *)
Fixpoint utf8_decode (bs : list N) : str :=
  match bs with
  | [] => []
  | b :: r =>
    if (b <? 128)%N then b :: utf8_decode r
    else if (b <? 224)%N then
      match r with
      | b1 :: r1 => ((b - 192) * 64 + (b1 - 128))%N :: utf8_decode r1
      | _ => []
      end
    else if (b <? 240)%N then
      match r with
      | b1 :: b2 :: r2 =>
        ((b - 224) * 4096 + (b1 - 128) * 64 + (b2 - 128))%N :: utf8_decode r2
      | _ => []
      end
    else
      match r with
      | b1 :: b2 :: b3 :: r3 =>
        ((b - 240) * 262144 + (b1 - 128) * 4096 + (b2 - 128) * 64 + (b3 - 128))%N
          :: utf8_decode r3
      | _ => []
      end
  end.

Definition bytes_of (s : string) : list N :=
  map Ascii.N_of_ascii (String.list_ascii_of_string s).

End Str.

(** [py "text"] is the Python string literal ['text']. *)
Definition py (s : string) : str := Str.utf8_decode (Str.bytes_of s).

Module PyStr.

(** [str.isspace] on one code point: the characters [str.strip()] removes. *)
Definition isspace (c : N) : bool :=
  ((9 <=? c) && (c <=? 13) || (28 <=? c) && (c <=? 32)
   || (c =? 133) || (c =? 160) || (c =? 5760)
   || (8192 <=? c) && (c <=? 8202)
   || (c =? 8232) || (c =? 8233) || (c =? 8239) || (c =? 8287)
   || (c =? 12288))%N.

Fixpoint lstrip_by (p : N → bool) (s : str) : str :=
  match s with
  | [] => []
  | c :: r => if p c then lstrip_by p r else s
  end.

Definition rstrip_by (p : N → bool) (s : str) : str :=
  reverse (lstrip_by p (reverse s)).

Definition strip_by (p : N → bool) (s : str) : str :=
  rstrip_by p (lstrip_by p s).

(** [s.strip()] *)
Definition strip (s : str) : str := strip_by isspace s.

Definition mem (chars : str) (c : N) : bool := existsb (N.eqb c) chars.

(** [s.strip(chars)] *)
Definition strip_chars (chars : str) (s : str) : str := strip_by (mem chars) s.

(** [s.rfind(c)] for a one-character [c]: the highest index of [c], or -1. *)
Fixpoint rfind_from (c : N) (s : str) (i last : Z) : Z :=
  match s with
  | [] => last
  | x :: r => rfind_from c r (i + 1) (if (x =? c)%N then i else last)
  end.

Definition rfind (s : str) (c : N) : Z := rfind_from c s 0 (-1).

(** [s[i:j]] for [0 <= i]. *)
Definition slice (s : str) (i j : Z) : str :=
  take (Z.to_nat (j - i)) (drop (Z.to_nat i) s).

(** [re.sub("[...]+", repl, s)]: every maximal run of characters of the
    class [p] is replaced by one copy of [repl]. *)
Fixpoint sub_runs (p : N → bool) (repl : str) (in_run : bool) (s : str) : str :=
  match s with
  | [] => []
  | c :: r =>
    if p c then (if in_run then [] else repl) ++ sub_runs p repl true r
    else c :: sub_runs p repl false r
  end.

(** [str(n)] for an [int]. *)
Definition digit_char (d : Z) : N := Z.to_N (48 + d).

Fixpoint digits_fuel (fuel : nat) (n : Z) (acc : str) : str :=
  match fuel with
  | O => acc
  | S f =>
    if (n <? 10)%Z then digit_char n :: acc
    else digits_fuel f (n / 10)%Z (digit_char (n mod 10) :: acc)
  end.

Definition digits (n : Z) : str := digits_fuel (S (Z.to_nat (Z.log2 n))) n [].

Definition of_int (n : Z) : str :=
  if (n <? 0)%Z then 45%N :: digits (- n) else digits n.

End PyStr.

(** ** [os.path] (POSIX) *)

Module OsPath.
Import PyStr.

Definition sep : N := 47.     (* "/" *)
Definition extsep : N := 46.  (* "." *)

(** [genericpath._splitext(p, "/", None, ".")]: split at the last dot of
    the last path component, unless only dots precede it there. *)
Definition splitext (p : str) : str * str :=
  let sepIndex := rfind p sep in
  let dotIndex := rfind p extsep in
  if (sepIndex <? dotIndex)%Z
     && existsb (λ c, negb (c =? extsep)%N) (slice p (sepIndex + 1) dotIndex)
  then (take (Z.to_nat dotIndex) p, drop (Z.to_nat dotIndex) p)
  else (p, []).

End OsPath.

(** ** Exceptions and results *)

Inductive exn_class :=
  | AttributeError | TypeError | ValueError | OverflowError
  | ZeroDivisionError | KeyError | IndexError | RuntimeError | OSError
  | DownloadError.

(** An exception object; [str(e)] is [exn_msg e]. *)
Record exn := Exn { exn_cls : exn_class; exn_msg : str }.

(** The outcome of a call that may raise. *)
Inductive result (A : Type) :=
  | Ok (a : A)
  | Raise (e : exn).
Arguments Ok {A} a.
Arguments Raise {A} e.

#[global] Instance result_ret : MRet result := λ A a, Ok a.
#[global] Instance result_bind : MBind result := λ A B k r,
  match r with
  | Ok a => k a
  | Raise e => Raise e
  end.

(** ** Python floats (binary64) *)

Module PyFloat.
Import PyStr.

Definition prec : Z := 53.
Definition emax : Z := 1024.
Abbreviation float := spec_float.

(** The correctly rounded binary64 value of [(-1)^s * p / q]. The quotient
    is taken with more than [prec] bits and the position of the remainder. *)
Definition of_ratio (s : bool) (p q : Z) : float :=
  let k := Z.max 0 (prec + 2 + Z.log2 q - Z.log2 p) in
  let '(m, r) := Z.div_eucl (Z.shiftl p k) q in
  binary_round_aux prec emax s m (- k) (new_location q r).

(** [float(n)] for an [int n], before the overflow check. *)
Definition round_int (n : Z) : float := binary_normalize prec emax n 0 false.

(** [float(n)] for an [int n]. *)
Definition of_int (n : Z) : result float :=
  match round_int n with
  | S754_infinity _ => Raise (Exn OverflowError (py "int too large to convert to float"))
  | f => Ok f
  end.

Definition is_zero (x : float) : bool :=
  match x with S754_zero _ => true | _ => false end.

(** [x / y] and [x < y] *)
Definition div (x y : float) : result float :=
  if is_zero y then Raise (Exn ZeroDivisionError (py "float division by zero"))
  else Ok (SFdiv prec emax x y).
Definition ltb (x y : float) : bool := SFltb x y.

(** Exact comparison [n < y] of an [int] with a [float]. *)
Definition int_ltb (n : Z) (y : float) : bool :=
  match y with
  | S754_nan => false
  | S754_infinity s => negb s
  | S754_zero _ => (n <? 0)%Z
  | S754_finite s m e =>
    let v := cond_Zopp s (Z.pos m) in
    if (0 <=? e)%Z then (n <? v * 2 ^ e)%Z else (n * 2 ^ (- e) <? v)%Z
  end.

(** [int(x)]: truncation toward zero. *)
Definition to_int (x : float) : result Z :=
  match x with
  | S754_zero _ => Ok 0%Z
  | S754_finite s m e => Ok (cond_Zopp s (Z.shiftl (Z.pos m) e))
  | S754_infinity _ => Raise (Exn OverflowError (py "cannot convert float infinity to integer"))
  | S754_nan => Raise (Exn ValueError (py "cannot convert float NaN to integer"))
  end.

(** The integer nearest to [m * 2^e], ties to even. *)
Definition round_half_even (m e : Z) : Z :=
  if (0 <=? e)%Z then (m * 2 ^ e)%Z
  else
    let d := (2 ^ (- e))%Z in
    let q := (m / d)%Z in
    let r := (m mod d)%Z in
    match (2 * r ?= d)%Z with
    | Lt => q
    | Gt => (q + 1)%Z
    | Eq => if Z.even q then q else (q + 1)%Z
    end.

(** [format(x, ".0f")] *)
Definition format_f0 (x : float) : str :=
  match x with
  | S754_zero s => (if s then py "-" else []) ++ py "0"
  | S754_finite s m e => (if s then py "-" else []) ++ PyStr.of_int (round_half_even (Z.pos m) e)
  | S754_infinity s => (if s then py "-" else []) ++ py "inf"
  | S754_nan => py "nan"
  end.

(** *** [float(s)] for a [str s] *)

Definition is_digit (c : N) : bool := ((48 <=? c) && (c <=? 57))%N.

(** The white space [float] and [int] skip around a literal: ASCII blanks
    and the non-ASCII Unicode spaces. *)
Definition is_blank (c : N) : bool :=
  isspace c && negb ((28 <=? c) && (c <=? 31))%N.

(** An underscore is accepted between two digits only; accepted
    underscores are dropped. [prev] is the preceding character. *)
Fixpoint drop_underscores (prev : N) (s : str) : option str :=
  match s with
  | [] => if (prev =? 95)%N then None else Some []
  | c :: r =>
    if (c =? 95)%N then
      if is_digit prev then drop_underscores c r else None
    else if (prev =? 95)%N && negb (is_digit c) then None
    else cons c <$> drop_underscores c r
  end.

Fixpoint span_digits (s : str) : str * str :=
  match s with
  | c :: r => if is_digit c then let '(ds, rest) := span_digits r in (c :: ds, rest)
              else ([], s)
  | [] => ([], [])
  end.

(** The value of a digit string, continuing from [acc]. *)
Definition digits_value (acc : Z) (ds : str) : Z :=
  foldl (λ a c, (10 * a + (Z.of_N c - 48))%Z) acc ds.

Definition split_sign (s : str) : bool * str :=
  match s with
  | 45%N :: r => (true, r)
  | 43%N :: r => (false, r)
  | _ => (false, s)
  end.

Definition lower (c : N) : N :=
  if ((65 <=? c) && (c <=? 90))%N then (c + 32)%N else c.

(** [e] or [E], an optional sign and at least one digit; the empty string
    stands for no exponent. *)
Definition parse_exponent (s : str) : option Z :=
  match s with
  | [] => Some 0%Z
  | c :: r =>
    if (lower c =? 101)%N then
      let '(neg, r1) := split_sign r in
      match span_digits r1 with
      | ((_ :: _) as ds, []) => Some (cond_Zopp neg (digits_value 0 ds))
      | _ => None
      end
    else None
  end.

(** A decimal literal [digits [. digits] [exponent]] or [. digits [exponent]]
    as a mantissa and a power of ten. *)
Definition parse_decimal (s : str) : option (Z * Z) :=
  let '(ip, r) := span_digits s in
  let '(fp, r1) :=
    match r with
    | 46%N :: r' => span_digits r'
    | _ => ([], r)
    end in
  match ip ++ fp with
  | [] => None
  | ds =>
    ex ← parse_exponent r1;
    Some (digits_value 0 ds, (ex - Z.of_nat (length fp))%Z)
  end.

Definition of_decimal (neg : bool) (m e : Z) : float :=
  if (m =? 0)%Z then S754_zero neg
  else of_ratio neg (m * 10 ^ Z.max 0 e) (10 ^ Z.max 0 (- e)).

Definition parse (s : str) : option float :=
  s1 ← drop_underscores 0 (strip_by is_blank s);
  let '(neg, body) := split_sign s1 in
  let name := map lower body in
  if bool_decide (name = py "inf") || bool_decide (name = py "infinity")
  then Some (S754_infinity neg)
  else if bool_decide (name = py "nan") then Some S754_nan
  else '(m, e) ← parse_decimal body; Some (of_decimal neg m e).

(** [float(s)] *)
Definition of_str (s : str) : result float :=
  match parse s with
  | Some x => Ok x
  | None => Raise (Exn ValueError (py "could not convert string to float: '" ++ s ++ py "'"))
  end.

End PyFloat.

(** [int(s)] for a [str s]: blanks, an optional sign, digits with single
    underscores between them. *)
Definition int_of_str (s : str) : result Z :=
  let bad := Raise (Exn ValueError (py "invalid literal for int() with base 10: '" ++ s ++ py "'")) in
  match PyFloat.drop_underscores 0 (PyStr.strip_by PyFloat.is_blank s) with
  | Some s1 =>
    let '(neg, body) := PyFloat.split_sign s1 in
    match PyFloat.span_digits body with
    | ((_ :: _) as ds, []) => Ok (cond_Zopp neg (PyFloat.digits_value 0 ds))
    | _ => bad
    end
  | None => bad
  end.

(** ** Utils *)

(** The character class of [sanitize_filename]: backslash, slash, star,
    question mark, colon, double quote, less-than, greater-than, bar. *)
Definition forbidden_chars : str := [92; 47; 42; 63; 58; 34; 60; 62; 124]%N.

Definition is_forbidden (c : N) : bool := PyStr.mem forbidden_chars c.

Definition sanitize_filename (name : str) : str :=
  let cleaned := PyStr.strip (PyStr.sub_runs is_forbidden (py "_") false name) in
  match cleaned with
  | [] => py "video"
  | _ => cleaned
  end.

Definition force_mp4_name (base : str) : str :=
  let base := sanitize_filename base in
  let '(stem, _ext) := OsPath.splitext base in
  stem ++ py ".mp4".



(** ** Python values *)

(** The objects found in the dictionaries the engine hands over. *)
#[warnings="-register-all"]
Inductive value :=
  | VNone
  | VBool (b : bool)
  | VInt (n : Z)
  | VFloat (x : PyFloat.float)
  | VStr (s : str)
  | VList (l : list value)
  | VDict (d : gmap string value).

Abbreviation dict := (gmap string value).

Module PyVal.

Definition type_name (v : value) : str :=
  match v with
  | VNone => py "NoneType"
  | VBool _ => py "bool"
  | VInt _ => py "int"
  | VFloat _ => py "float"
  | VStr _ => py "str"
  | VList _ => py "list"
  | VDict _ => py "dict"
  end.

(** [bool(v)] *)
Definition truthy (v : value) : bool :=
  match v with
  | VNone => false
  | VBool b => b
  | VInt n => negb (n =? 0)%Z
  | VFloat x => negb (PyFloat.is_zero x)
  | VStr s => negb (bool_decide (s = []))
  | VList l => match l with [] => false | _ => true end
  | VDict d => negb (bool_decide (d = ∅))
  end.

(** [a or b] *)
Definition or (a b : value) : value := if truthy a then a else b.

(** [d.get(k)] *)
Definition get (d : dict) (k : string) : value := default VNone (d !! k).

(** [v == s] for a string literal [s] *)
Definition eq_str (v : value) (s : str) : bool :=
  match v with
  | VStr t => bool_decide (t = s)
  | _ => false
  end.

Definition no_attribute (v : value) (attr : string) : exn :=
  Exn AttributeError
    (py "'" ++ type_name v ++ py "' object has no attribute '" ++ py attr ++ py "'").

(** [v.strip()] *)
Definition strip (v : value) : result str :=
  match v with
  | VStr s => Ok (PyStr.strip s)
  | _ => Raise (no_attribute v "strip")
  end.

(** [v.get(k)] *)
Definition get_method (v : value) (k : string) : result value :=
  match v with
  | VDict d => Ok (get d k)
  | _ => Raise (no_attribute v "get")
  end.

(** [v[0]] *)
Definition item0 (v : value) : result value :=
  match v with
  | VList (x :: _) => Ok x
  | VList [] => Raise (Exn IndexError (py "list index out of range"))
  | VStr (c :: _) => Ok (VStr [c])
  | VStr [] => Raise (Exn IndexError (py "string index out of range"))
  | VDict _ => Raise (Exn KeyError (py "0"))
  | _ => Raise (Exn TypeError (py "'" ++ type_name v ++ py "' object is not subscriptable"))
  end.

(** [int(v)] *)
Definition int (v : value) : result Z :=
  match v with
  | VBool b => Ok (if b then 1 else 0)%Z
  | VInt n => Ok n
  | VFloat x => PyFloat.to_int x
  | VStr s => int_of_str s
  | _ => Raise (Exn TypeError
            (py "int() argument must be a string, a bytes-like object or a real number, not '"
               ++ type_name v ++ py "'"))
  end.

(** [os.fspath(v)], as [os.path.splitext] and [Path] apply it. *)
Definition fspath (v : value) : result str :=
  match v with
  | VStr s => Ok s
  | _ => Raise (Exn TypeError
            (py "expected str, bytes or os.PathLike object, not " ++ type_name v))
  end.

End PyVal.

(** ** [pathlib] (POSIX) *)

Module Pathlib.

(** A path in parsed form: the root (empty, one slash or two) and the
    components, none of them empty or a single dot. *)
Record Path := mkPath { root : str; parts : list str }.

#[global] Instance Path_eq_dec : EqDecision Path.
Proof. solve_decision. Defined.

(** [s.split("/")] *)
Fixpoint split_sep (cur : str) (s : str) : list str :=
  match s with
  | [] => [reverse cur]
  | c :: r => if (c =? OsPath.sep)%N then reverse cur :: split_sep [] r
              else split_sep (c :: cur) r
  end.

Definition splitroot (s : str) : str * str :=
  match s with
  | 47%N :: 47%N :: 47%N :: _ => ([47%N], drop 1 s)
  | 47%N :: 47%N :: r => ([47%N; 47%N], r)
  | 47%N :: r => ([47%N], r)
  | _ => ([], s)
  end.

(** [Path(s)] *)
Definition of_str (s : str) : Path :=
  let '(rt, rel) := splitroot s in
  mkPath rt (filter (λ x, x ≠ [] ∧ x ≠ [OsPath.extsep]) (split_sep [] rel)).

Fixpoint join_sep (l : list str) : str :=
  match l with
  | [] => []
  | [x] => x
  | x :: r => x ++ OsPath.sep :: join_sep r
  end.

(** [str(p)] *)
Definition to_str (p : Path) : str :=
  match root p ++ join_sep (parts p) with
  | [] => py "."
  | s => s
  end.

(** [posixpath.join(a, b)] *)
Definition os_join (a b : str) : str :=
  match b with
  | 47%N :: _ => b
  | _ =>
    match last a with
    | None | Some 47%N => a ++ b
    | _ => a ++ OsPath.sep :: b
    end
  end.

(** [p / name] *)
Definition joinpath (p : Path) (name : str) : Path :=
  of_str (os_join (to_str p) name).

End Pathlib.

Abbreviation Path := Pathlib.Path.

(** [human_size]: the running value [n] is an [int] on entry and a [float]
    after the first division. *)
Inductive num :=
  | NInt (n : Z)
  | NFloat (x : PyFloat.float).

Definition num_float (n : num) : result PyFloat.float :=
  match n with
  | NInt z => PyFloat.of_int z
  | NFloat x => Ok x
  end.

(** [n < step] *)
Definition num_ltb (n : num) (step : PyFloat.float) : bool :=
  match n with
  | NInt z => PyFloat.int_ltb z step
  | NFloat x => PyFloat.ltb x step
  end.

(** [n / step] *)
Definition num_div (n : num) (step : PyFloat.float) : result num :=
  x ← num_float n; y ← PyFloat.div x step; Ok (NFloat y).

(** [f"{n:.0f} {unit}"] *)
Definition num_format (n : num) (unit : str) : result str :=
  x ← num_float n; Ok (PyFloat.format_f0 x ++ py " " ++ unit).

Definition step : PyFloat.float := PyFloat.round_int 1024.

Definition units : list str := [py "B"; py "KB"; py "MB"; py "GB"; py "TB"].

Fixpoint human_size_loop (us : list str) (n : num) : result str :=
  match us with
  | unit :: rest =>
    if num_ltb n step then num_format n unit
    else n' ← num_div n step; human_size_loop rest n'
  | [] => num_format n (py "PB")
  end.

Definition human_size (n : Z) : result str := human_size_loop units (NInt n).

(** ** Events and the effects of the background thread *)

(** [Event = Tuple[str, str]]: a kind and a payload. *)
Abbreviation Event := (str * str)%type.

(** A computation of the background thread: the events it has put, in
    order, and how it ended. *)
Record Eff (A : Type) := mkEff { emitted : list Event; outcome : result A }.
Arguments mkEff {A} emitted outcome.
Arguments emitted {A} e.
Arguments outcome {A} e.

#[global] Instance Eff_ret : MRet Eff := λ A a, mkEff [] (Ok a).
#[global] Instance Eff_bind : MBind Eff := λ A B k m,
  match outcome m with
  | Ok a => mkEff (emitted m ++ emitted (k a)) (outcome (k a))
  | Raise e => mkEff (emitted m) (Raise e)
  end.

(** [self.put(ev)] *)
Definition put (ev : Event) : Eff unit := mkEff [ev] (Ok tt).

(** A call that puts nothing. *)
Definition lift {A} (r : result A) : Eff A := mkEff [] r.

(** [try: body except Exception as e: handler(e)] *)
Definition try_except {A} (body : Eff A) (handler : exn → Eff A) : Eff A :=
  match outcome body with
  | Ok a => body
  | Raise e => mkEff (emitted body ++ emitted (handler e)) (outcome (handler e))
  end.

(** ** Downloader *)

Record DownloadRequest := {
  url : str;
  outdir : Path;
  output_name : option str;
}.

(** [Downloader._hook], lines 76 to 80: the percent of a tick. *)
Definition _hook_percent (percent_str : str) : Eff unit :=
  try_except
    (percent ← lift (x ← PyFloat.of_str (PyStr.strip_chars (py "%") percent_str);
                     PyFloat.to_int x);
     put (py "progress", PyStr.of_int (Z.max 0 (Z.min 100 percent))))
    (λ _, mret tt).

(** [Downloader._hook], lines 81 to 86: the sizes of a tick. *)
Definition _hook_sizes (d : dict) : Eff unit :=
  downloaded ← lift (PyVal.int (PyVal.or (PyVal.get d "downloaded_bytes") (VInt 0)));
  total ← lift (PyVal.int
                  (PyVal.or (PyVal.or (PyVal.get d "total_bytes")
                                      (PyVal.get d "total_bytes_estimate"))
                            (VInt 0)));
  msg ← lift (human_size downloaded);
  msg ← (if (total =? 0)%Z then mret msg
         else t ← lift (human_size total); mret (msg ++ py " / " ++ t));
  put (py "log", msg).

Definition _hook (d : dict) : Eff unit :=
  let status := PyVal.get d "status" in
  if PyVal.eq_str status (py "downloading") then
    percent_str ← lift (PyVal.strip (PyVal.or (PyVal.get d "_percent_str") (VStr (py "0%"))));
    _ ← _hook_percent percent_str;
    _hook_sizes d
  else if PyVal.eq_str status (py "finished") then
    _ ← put (py "progress", py "100");
    put (py "log", py "Постобработка (mp4)…")
  else mret tt.

(** The options handed to [YoutubeDL]; [progress_hooks] is [_hook]. *)
Record YdlOpts := {
  outtmpl : str;
  quiet : bool;
  noprogress : bool;
  merge_output_format : str;
  remuxer_preferedformat : str;
}.

(** What one call of [extract_info] does, seen from the caller: the
    progress ticks it reports, its return value or exception, and the file
    system it leaves. *)
Record EngineRun (W : Type) := {
  ticks : list dict;
  returned : result value;
  world_after : W;
}.
Arguments ticks {W} e.
Arguments returned {W} e.
Arguments world_after {W} e.

(** The collaborators of [Downloader]: the file system and yt-dlp. *)
Class Env := {
  World : Type;
  (** [p.mkdir(parents=True, exist_ok=True)] *)
  mkdir : Path → World → result World;
  (** [p.exists()] *)
  path_exists : Path → World → bool;
  (** [YoutubeDL(opts).extract_info(url, download=True)] *)
  extract_info : YdlOpts → str → World → EngineRun World;
  (** [YoutubeDL(opts).prepare_filename(info)] *)
  prepare_filename : YdlOpts → value → result str;
}.

(** The engine calls the hook once per tick; an exception of the hook
    ends the call. *)
Fixpoint run_hooks (hook : dict → Eff unit) (ts : list dict) : Eff unit :=
  match ts with
  | [] => mret tt
  | d :: rest => _ ← hook d; run_hooks hook rest
  end.

Section Downloader.
Context {E : Env}.

(** [Downloader.download], lines 118 to 125: the path of the result. *)
Definition download_resolve (opts : YdlOpts) (info : value) : result str :=
  path ← match info with
         | VDict d =>
           if PyVal.truthy (PyVal.get d "requested_downloads") then
             first ← PyVal.item0 (PyVal.get d "requested_downloads");
             PyVal.get_method first "filepath"
           else Ok VNone
         | _ => Ok VNone
         end;
  let path := match info with
              | VDict d => if PyVal.truthy path then path else PyVal.get d "_filename"
              | _ => path
              end in
  if PyVal.truthy path then PyVal.fspath path
  else prepare_filename opts info.

(** [Downloader.download], lines 128 to 130: the [.mp4] sibling. *)
Definition download_reconcile (path : str) (w : World) : Path :=
  let '(base, _ext) := OsPath.splitext path in
  let mp4 := Pathlib.of_str (base ++ py ".mp4") in
  if path_exists mp4 w then mp4 else Pathlib.of_str path.

Definition ydl_opts (req : DownloadRequest) : YdlOpts :=
  let name := match output_name req with
              | Some ((_ :: _) as n) => n
              | _ => py "%(title)s.%(ext)s"
              end in
  {| outtmpl := Pathlib.to_str (Pathlib.joinpath (outdir req) name);
     quiet := true;
     noprogress := true;
     merge_output_format := py "mp4";
     remuxer_preferedformat := py "mp4" |}.

Definition download (req : DownloadRequest) (w : World) : Eff Path :=
  w1 ← lift (mkdir (outdir req) w);
  let opts := ydl_opts req in
  _ ← put (py "status", py "Подготовка…");
  let run := extract_info opts (url req) w1 in
  _ ← run_hooks _hook (ticks run);
  info ← lift (returned run);
  match info with
  | VNone => lift (Raise (Exn RuntimeError (py "yt-dlp не вернул метаданные.")))
  | _ =>
    path ← lift (download_resolve opts info);
    mret (download_reconcile path (world_after run))
  end.

(** ** Worker thread *)

Definition worker (req : DownloadRequest) (w : World) : Eff unit :=
  try_except
    (result ← download req w;
     put (py "done", Pathlib.to_str result))
    (λ e, put (py "error", exn_msg e)).

End Downloader.

(** ** GUI *)

(** A call of [messagebox]. *)
Inductive Dialog :=
  | showinfo (title message : str)
  | showerror (title message : str).

(** The state of [App]: the widgets, the queue and the flag, with what
    the application has done to its surroundings (dialogs shown, threads
    started, delays of the timer calls scheduled). *)
Record App := mkApp {
  ent_url : str;
  ent_out : str;
  ent_name : str;
  pb_value : Z;
  txt : str;
  title : str;
  _events : list Event;
  _downloading : bool;
  dialogs : list Dialog;
  threads : list DownloadRequest;
  after_calls : list Z;
}.

Definition POLL_MS : Z := 100.

Definition set_pb (v : Z) (a : App) : App :=
  mkApp (ent_url a) (ent_out a) (ent_name a) v (txt a) (title a) (_events a)
        (_downloading a) (dialogs a) (threads a) (after_calls a).
Definition set_txt (t : str) (a : App) : App :=
  mkApp (ent_url a) (ent_out a) (ent_name a) (pb_value a) t (title a) (_events a)
        (_downloading a) (dialogs a) (threads a) (after_calls a).
Definition set_title (t : str) (a : App) : App :=
  mkApp (ent_url a) (ent_out a) (ent_name a) (pb_value a) (txt a) t (_events a)
        (_downloading a) (dialogs a) (threads a) (after_calls a).
Definition set_events (q : list Event) (a : App) : App :=
  mkApp (ent_url a) (ent_out a) (ent_name a) (pb_value a) (txt a) (title a) q
        (_downloading a) (dialogs a) (threads a) (after_calls a).
Definition set_downloading (b : bool) (a : App) : App :=
  mkApp (ent_url a) (ent_out a) (ent_name a) (pb_value a) (txt a) (title a) (_events a)
        b (dialogs a) (threads a) (after_calls a).
Definition show (d : Dialog) (a : App) : App :=
  mkApp (ent_url a) (ent_out a) (ent_name a) (pb_value a) (txt a) (title a) (_events a)
        (_downloading a) (dialogs a ++ [d]) (threads a) (after_calls a).
Definition start_thread (req : DownloadRequest) (a : App) : App :=
  mkApp (ent_url a) (ent_out a) (ent_name a) (pb_value a) (txt a) (title a) (_events a)
        (_downloading a) (dialogs a) (threads a ++ [req]) (after_calls a).
Definition after (ms : Z) (a : App) : App :=
  mkApp (ent_url a) (ent_out a) (ent_name a) (pb_value a) (txt a) (title a) (_events a)
        (_downloading a) (dialogs a) (threads a) (after_calls a ++ [ms]).

(** [App.__init__] *)
Definition App_init : App :=
  {| ent_url := []; ent_out := py "downloads"; ent_name := [];
     pb_value := 0; txt := []; title := py "Fetch Media — на yt-dlp";
     _events := []; _downloading := false; dialogs := []; threads := [];
     after_calls := [POLL_MS] |}.

Definition _log (msg : str) (a : App) : App :=
  set_txt (txt a ++ msg ++ [10%N]) a.

Definition _set_status (s : str) (a : App) : App :=
  _log s (set_title (py "Fetch Media — " ++ s) a).

Section App.
Context {E : Env}.

(** [App._start_download]. An exception of [mkdir] leaves the callback
    before any widget is touched. *)
Definition _start_download (a : App) (w : World) : result (App * World) :=
  if _downloading a then
    Ok (show (showinfo (py "Идёт загрузка")
                       (py "Подождите, текущая загрузка ещё не закончилась.")) a, w)
  else
    let url := PyStr.strip (ent_url a) in
    match url with
    | [] => Ok (show (showerror (py "Ошибка") (py "Укажите ссылку.")) a, w)
    | _ =>
      let outdir_text := match PyStr.strip (ent_out a) with
                         | [] => py "downloads"
                         | t => t
                         end in
      let outdir := Pathlib.of_str outdir_text in
      let raw_name := PyStr.strip (ent_name a) in
      let output_name := match raw_name with
                         | [] => None
                         | _ => Some (force_mp4_name raw_name)
                         end in
      w1 ← mkdir outdir w;
      let a := set_pb 0 a in
      let a := set_txt [] a in
      let a := set_downloading true a in
      let req := {| url := url; outdir := outdir; output_name := output_name |} in
      Ok (start_thread req a, w1)
    end.

End App.

(** One round of the loop of [App._poll_queue]: the event taken from the
    queue is applied. *)
Definition handle_event (ev : Event) (a : App) : App :=
  let '(kind, payload) := ev in
  if bool_decide (kind = py "status") then _set_status payload a
  else if bool_decide (kind = py "progress") then
    match int_of_str payload with
    | Ok n => set_pb (Z.max 0 (Z.min 100 n)) a
    | Raise _ => a
    end
  else if bool_decide (kind = py "log") then _log payload a
  else if bool_decide (kind = py "done") then
    let a := set_pb 100 a in
    let a := _log (py "✅ Готово: " ++ payload) a in
    let a := show (showinfo (py "Готово")
                            (py "Файл сохранён:" ++ 10%N :: payload)) a in
    let a := set_downloading false a in
    set_title (py "Fetch Media — на yt-dlp") a
  else if bool_decide (kind = py "error") then
    let a := _log (py "❌ Ошибка: " ++ payload) a in
    let a := show (showerror (py "Ошибка") payload) a in
    let a := set_downloading false a in
    set_title (py "Fetch Media — на yt-dlp") a
  else a.

(** [App._poll_queue]: the queue is drained, then the next call is
    scheduled. *)
Definition _poll_queue (a : App) : App :=
  after POLL_MS (foldl (λ a ev, handle_event ev a) (set_events [] a) (_events a)).

(** *** The thread and the loop together

    After an accepted start the worker puts its events one by one while
    the loop polls; [to_put] holds what the worker has not put yet. *)
Record Sys := mkSys { app : App; to_put : list Event }.

Inductive sys_step : Sys → Sys → Prop :=
  | step_put a ev rest :
      sys_step (mkSys a (ev :: rest)) (mkSys (set_events (_events a ++ [ev]) a) rest)
  | step_poll a rest :
      sys_step (mkSys a rest) (mkSys (_poll_queue a) rest).

(** The worker is through and the loop has seen all of it. *)
Definition quiescent (s : Sys) : Prop := to_put s = [] ∧ _events (app s) = [].

(** * Definitions used to state the properties *)

(** A name made of dots only. *)
Definition all_dots (s : str) : Prop := Forall (λ c, c = OsPath.extsep) s.

Definition has_non_dot (s : str) : bool := existsb (λ c, negb (c =? OsPath.extsep)%N) s.

Definition clean (s : str) : Prop := Forall (λ c, is_forbidden c = false) s.

(** The units of [human_size], the index of the smallest unit in which
    [n] scales below 1024 ([PB] when there is none), and the text of [n]
    in the unit of index [k]: [n / 1024^k] to the nearest integer, ties
    to even. *)
Definition all_units : list str := units ++ [py "PB"].

Fixpoint smallest_unit (k fuel : nat) (n : Z) : nat :=
  match fuel with
  | O => k
  | S f => if (n <? 1024 ^ (Z.of_nat k + 1))%Z then k else smallest_unit (S k) f n
  end.

Definition unit_index (n : Z) : nat := smallest_unit 0 5 n.

Definition rendered (n : Z) (k : nat) : str :=
  PyStr.of_int (PyFloat.round_half_even n (- 10 * Z.of_nat k)) ++ py " " ++ nth k all_units [].

Fixpoint loop_exponent (us : list str) (e : Z) : Z * str :=
  match us with
  | u :: rest => if (e <? -42)%Z then (e, u) else loop_exponent rest (e - 10)
  | [] => (e, py "PB")
  end.




(** Metadata as yt-dlp documents it: [requested_downloads] is missing,
    [None] or a list of dictionaries; [filepath] and [_filename] are
    missing, [None] or strings. *)
Definition str_or_missing (v : option value) : Prop :=
  match v with
  | None | Some VNone | Some (VStr _) => True
  | _ => False
  end.

Definition wf_info (d : dict) : Prop :=
  str_or_missing (d !! "_filename") ∧
  match d !! "requested_downloads" with
  | None | Some VNone | Some (VList []) => True
  | Some (VList (VDict e :: _)) => str_or_missing (e !! "filepath")
  | _ => False
  end.

Definition nonempty_str (v : option value) : option str :=
  match v with
  | Some (VStr ((_ :: _) as s)) => Some s
  | _ => None
  end.

(** (a) the [filepath] of the first requested download *)
Definition first_filepath (d : dict) : option str :=
  match d !! "requested_downloads" with
  | Some (VList (VDict e :: _)) => nonempty_str (e !! "filepath")
  | _ => None
  end.

(** (b) the top-level [_filename] *)
Definition top_filename (d : dict) : option str := nonempty_str (d !! "_filename").

(** The percent of a tick as an integer, and the [progress] events of a
    tick with percent string [s]. *)
Definition percent_of (s : str) : result Z :=
  x ← PyFloat.of_str (PyStr.strip_chars (py "%") s); PyFloat.to_int x.

Definition progress_events (s : str) : list Event :=
  match percent_of s with
  | Ok n => [(py "progress", PyStr.of_int (Z.max 0 (Z.min 100 n)))]
  | Raise _ => []
  end.

Definition has_kind (k : string) (ev : Event) : Prop := ev.1 = py k.

#[global] Instance has_kind_dec k ev : Decision (has_kind k ev).
Proof. unfold has_kind. apply _. Defined.

(** A tick of a running download. *)
Definition downloading (d : dict) : Prop :=
  PyVal.get d "status" = VStr (py "downloading").



(** ** A scripted environment, for the examples

    The file system is the list of the paths that exist; the engine
    reports the ticks [ts], ends with [ret] and leaves the files
    [created]; [prepare_filename] answers the template. *)
Definition scripted (ts : list dict) (ret : result value) (created : list Path) : Env :=
  {| World := list Path;
     mkdir p w := Ok (p :: w);
     path_exists p w := bool_decide (p ∈ w);
     extract_info _ _ w := {| ticks := ts; returned := ret; world_after := created ++ w |};
     prepare_filename opts _ := Ok (outtmpl opts) |}.

Definition tick (fields : list (string * value)) : dict :=
  list_to_map (("status", VStr (py "downloading")) :: fields).

(** An event that ends a download. *)
Definition terminal (ev : Event) : Prop := ev.1 = py "done" ∨ ev.1 = py "error".

#[global] Instance terminal_dec ev : Decision (terminal ev).
Proof. unfold terminal. apply _. Defined.

(** Sample metadata, options, request and engine run. *)
Definition demo_info : dict :=
  list_to_map
    [("requested_downloads",
      VList [VDict (list_to_map [("filepath", VStr (py "downloads/clip.mkv"))])]);
     ("_filename", VStr (py "downloads/other.webm"))].

Definition demo_opts : YdlOpts :=
  {| outtmpl := py "downloads/%(title)s.%(ext)s"; quiet := true; noprogress := true;
     merge_output_format := py "mp4"; remuxer_preferedformat := py "mp4" |}.

Definition busy_app : App := set_downloading true (set_pb 40 App_init).

Definition demo_req : DownloadRequest :=
  {| url := py "https://example.org/v"; outdir := Pathlib.of_str (py "downloads");
     output_name := Some (py "clip.mp4") |}.

Definition demo_env : Env :=
  scripted [tick [("_percent_str", VStr (py " 50.0%")); ("downloaded_bytes", VInt 2048);
                  ("total_bytes", VInt 4096)];
            list_to_map [("status", VStr (py "finished"))]]
           (Ok (VDict demo_info))
           [Pathlib.of_str (py "downloads/clip.mp4")].

(** The window after the user has typed a link and a name. *)
Definition typed_app : App :=
  {| ent_url := py " https://example.org/v "; ent_out := py "downloads";
     ent_name := py "my: clip.mkv";
     pb_value := 0; txt := []; title := py "Fetch Media — на yt-dlp";
     _events := []; _downloading := false; dialogs := []; threads := [];
     after_calls := [POLL_MS] |}.

(** ** The application at large

    The window, the file system and the worker threads, each thread being
    the events it has still to put. The user types in the entries and
    clicks on the download button, the threads put their events, the
    timer calls [_poll_queue], and the file system changes under the
    program. A thread started by [_start_download] runs [worker] in
    whatever file system it finds. *)
Definition set_entries (u o n : str) (a : App) : App :=
  mkApp u o n (pb_value a) (txt a) (title a) (_events a)
        (_downloading a) (dialogs a) (threads a) (after_calls a).

Section Life.
Context {E : Env}.

Record Life := mkLife { gui : App; fs : World; runs : list (list Event) }.

Inductive life_step : Life → Life → Prop :=
  | life_type a w rs u o n :
      life_step (mkLife a w rs) (mkLife (set_entries u o n a) w rs)
  | life_click a w rs a' w' wr :
      _start_download a w = Ok (a', w') →
      life_step (mkLife a w rs)
        (mkLife a' w'
           (rs ++ map (λ req, emitted (worker req wr))
                      (drop (length (threads a)) (threads a'))))
  | life_put a w rs1 ev rest rs2 :
      life_step (mkLife a w (rs1 ++ (ev :: rest) :: rs2))
        (mkLife (set_events (_events a ++ [ev]) a) w (rs1 ++ rest :: rs2))
  | life_poll a w rs :
      life_step (mkLife a w rs) (mkLife (_poll_queue a) w rs)
  | life_fs a w w' rs :
      life_step (mkLife a w rs) (mkLife a w' rs).

(** The threads that are still running. *)
Definition alive (s : Life) : list (list Event) := filter (λ r, r ≠ []) (runs s).

(** The events of one run: some that do not end it, then one that does. *)
Definition run_shape (r : list Event) : Prop :=
  ∃ pre final, r = pre ++ [final] ∧ terminal final ∧ Forall (λ ev, ¬ terminal ev) pre.

(** While the flag is up there is one run under way: either its thread
    is alive and nothing queued ends it, or the thread is through and
    the event that ends it is the last of the queue. With the flag down
    no thread is alive and the queue is empty. *)
Definition single_run (s : Life) : Prop :=
  if _downloading (gui s) then
    (alive s = [] ∧ run_shape (_events (gui s))) ∨
    (∃ r, alive s = [r] ∧ run_shape r ∧ Forall (λ ev, ¬ terminal ev) (_events (gui s)))
  else alive s = [] ∧ _events (gui s) = [].

End Life.

(** * Properties *)

(** ** Strings *)

Section Strip.
Import PyStr.
Variable p : N → bool.

Lemma lstrip_by_suffix s : lstrip_by p s `suffix_of` s.
Proof.
  induction s as [|c r IH]; simpl; [done|].
  destruct (p c); [|done]. by apply suffix_cons_r.
Qed.

Lemma lstrip_by_head s c : head (lstrip_by p s) = Some c → p c = false.
Proof.
  induction s as [|x r IH]; simpl; [done|].
  destruct (p x) eqn:Hx; [done|]. simpl. congruence.
Qed.

Lemma lstrip_by_keep s c : head s = Some c → p c = false → lstrip_by p s = s.
Proof. destruct s as [|x r]; simpl; [done|]. intros [= ->] ->. done. Qed.

Lemma rstrip_by_prefix s : rstrip_by p s `prefix_of` s.
Proof.
  unfold rstrip_by. destruct (lstrip_by_suffix (reverse s)) as [k Hk].
  exists (reverse k). apply (inj reverse).
  by rewrite reverse_app, !reverse_involutive.
Qed.

Lemma rstrip_by_last s c : last (rstrip_by p s) = Some c → p c = false.
Proof. unfold rstrip_by. rewrite last_reverse. apply lstrip_by_head. Qed.

Lemma rstrip_by_keep s c : last s = Some c → p c = false → rstrip_by p s = s.
Proof.
  intros Hl Hc. unfold rstrip_by.
  rewrite (lstrip_by_keep (reverse s) c); [apply reverse_involutive| |done].
  by rewrite head_reverse.
Qed.

Lemma strip_by_head s c : head (strip_by p s) = Some c → p c = false.
Proof.
  unfold strip_by. intros H.
  destruct (rstrip_by_prefix (lstrip_by p s)) as [k Hk].
  apply (lstrip_by_head s). rewrite Hk.
  destruct (rstrip_by p (lstrip_by p s)); [done|]. done.
Qed.

Lemma strip_by_last s c : last (strip_by p s) = Some c → p c = false.
Proof. apply rstrip_by_last. Qed.

Lemma strip_by_keep s a b :
  head s = Some a → p a = false → last s = Some b → p b = false →
  strip_by p s = s.
Proof.
  intros Ha Hpa Hb Hpb. unfold strip_by.
  rewrite (lstrip_by_keep s a) by done. by apply (rstrip_by_keep s b).
Qed.

Lemma strip_by_Forall (P : N → Prop) s : Forall P s → Forall P (strip_by p s).
Proof.
  intros H. unfold strip_by.
  destruct (lstrip_by_suffix s) as [k Hk].
  destruct (rstrip_by_prefix (lstrip_by p s)) as [k' Hk'].
  rewrite Hk, Hk' in H. by apply Forall_app in H as [_ [H _]%Forall_app].
Qed.

(** A run of [p] characters is replaced by [repl]: none is left. *)
Lemma sub_runs_Forall repl b s :
  Forall (λ c, p c = false) repl →
  Forall (λ c, p c = false) (sub_runs p repl b s).
Proof.
  intros Hr. revert b. induction s as [|c r IH]; intros b; simpl; [done|].
  destruct (p c) eqn:Hc.
  - apply Forall_app. split; [by destruct b|apply IH].
  - constructor; [done|apply IH].
Qed.

Lemma sub_runs_clean repl b s :
  Forall (λ c, p c = false) s → sub_runs p repl b s = s.
Proof.
  intros H. revert b. induction H as [|c r Hc _ IH]; intros b; simpl; [done|].
  rewrite Hc. by rewrite IH.
Qed.

End Strip.

(** ** [rfind] and [splitext] *)

Lemma rfind_from_notin c s i last : c ∉ s → PyStr.rfind_from c s i last = last.
Proof.
  revert i last. induction s as [|x r IH]; intros i last Hc; simpl; [done|].
  apply not_elem_of_cons in Hc as [Hx Hr].
  rewrite IH by done. destruct (N.eqb_spec x c); congruence.
Qed.

Lemma rfind_from_last c a b i last :
  c ∉ b → PyStr.rfind_from c (a ++ c :: b) i last = (i + Z.of_nat (length a))%Z.
Proof.
  intros Hb. revert i last. induction a as [|x a IH]; intros i last; simpl.
  - rewrite N.eqb_refl, rfind_from_notin by done. lia.
  - rewrite IH. lia.
Qed.

Lemma rfind_notin s c : c ∉ s → PyStr.rfind s c = (-1)%Z.
Proof. apply rfind_from_notin. Qed.

Lemma rfind_last a b c : c ∉ b → PyStr.rfind (a ++ c :: b) c = Z.of_nat (length a).
Proof. intros H. unfold PyStr.rfind. by rewrite rfind_from_last. Qed.

Lemma has_non_dot_false s : has_non_dot s = false ↔ all_dots s.
Proof.
  unfold has_non_dot, all_dots. induction s as [|c r IH]; simpl.
  - split; [constructor|done].
  - rewrite orb_false_iff, IH, Forall_cons, negb_false_iff, N.eqb_eq. done.
Qed.

Lemma has_non_dot_true s : has_non_dot s = true ↔ ¬ all_dots s.
Proof. rewrite <- has_non_dot_false. destruct (has_non_dot s); naive_solver. Qed.

Lemma splitext_no_dot p :
  OsPath.sep ∉ p → OsPath.extsep ∉ p → OsPath.splitext p = (p, []).
Proof.
  intros Hs Hd. unfold OsPath.splitext. by rewrite !rfind_notin.
Qed.

Lemma splitext_last_dot a b :
  OsPath.sep ∉ a → OsPath.sep ∉ b → OsPath.extsep ∉ b →
  OsPath.splitext (a ++ OsPath.extsep :: b) =
    if has_non_dot a then (a, OsPath.extsep :: b) else (a ++ OsPath.extsep :: b, []).
Proof.
  intros Ha Hb Hd. unfold OsPath.splitext.
  rewrite rfind_notin, rfind_last; [|done|].
  2:{ rewrite elem_of_app, elem_of_cons. intros [?|[?|?]]; done. }
  assert ((-1 <? Z.of_nat (length a))%Z = true) as -> by (apply Z.ltb_lt; lia).
  unfold PyStr.slice. replace (-1 + 1)%Z with 0%Z by lia.
  rewrite Z.sub_0_r, Nat2Z.id. change (Z.to_nat 0) with 0%nat. rewrite drop_0.
  rewrite take_app_length, drop_app_length. done.
Qed.

(** The stem is a prefix of the name. *)
Lemma splitext_prefix p : (OsPath.splitext p).1 `prefix_of` p.
Proof.
  unfold OsPath.splitext. case_match; simpl; [apply prefix_take|done].
Qed.

Lemma splitext_stem_non_dot t :
  OsPath.sep ∉ t → ¬ all_dots t → ¬ all_dots (OsPath.splitext t).1.
Proof.
  intros Hs Ht. destruct (decide (OsPath.extsep ∈ t)) as [Hd|Hd].
  - apply list_elem_of_split_r in Hd as (a & b & -> & Hb).
    rewrite elem_of_app, elem_of_cons in Hs.
    rewrite splitext_last_dot by naive_solver.
    destruct (has_non_dot a) eqn:Ha; simpl; [by apply has_non_dot_true|done].
  - by rewrite splitext_no_dot.
Qed.

Lemma splitext_all_dots t :
  t ≠ [] → all_dots t → OsPath.splitext t = (t, []).
Proof.
  intros Hne Ht. destruct (last t) as [c|] eqn:Hl.
  - apply last_Some in Hl as [a ->].
    apply Forall_app in Ht as [Ha Hc]. apply Forall_singleton in Hc as ->.
    assert (OsPath.sep ∉ a) as Hs.
    { intros Hin. eapply Forall_forall in Ha; [|done]. done. }
    rewrite splitext_last_dot by (done || apply not_elem_of_nil).
    by apply has_non_dot_false in Ha as ->.
  - by apply last_None in Hl.
Qed.

(** ** [sanitize_filename] *)

Lemma sanitize_filename_unfold name :
  sanitize_filename name =
    let cleaned := PyStr.strip (PyStr.sub_runs is_forbidden (py "_") false name) in
    if decide (cleaned = []) then py "video" else cleaned.
Proof. unfold sanitize_filename. simpl. by case_match. Qed.

Lemma sanitize_filename_clean name : clean (sanitize_filename name).
Proof.
  rewrite sanitize_filename_unfold. simpl. case_decide.
  - by repeat constructor.
  - apply strip_by_Forall, sub_runs_Forall. by repeat constructor.
Qed.

Lemma sanitize_filename_nonempty name : sanitize_filename name ≠ [].
Proof. rewrite sanitize_filename_unfold. simpl. by case_decide. Qed.

Lemma sanitize_filename_head name c :
  head (sanitize_filename name) = Some c → PyStr.isspace c = false.
Proof.
  rewrite sanitize_filename_unfold. simpl. case_decide.
  - by intros [= <-].
  - apply strip_by_head.
Qed.

Lemma sanitize_filename_last name c :
  last (sanitize_filename name) = Some c → PyStr.isspace c = false.
Proof.
  rewrite sanitize_filename_unfold. simpl. case_decide.
  - by intros [= <-].
  - apply strip_by_last.
Qed.

(** A clean name with no blank at either end is left as it is. *)
Lemma sanitize_filename_fixed s a b :
  clean s → head s = Some a → PyStr.isspace a = false →
  last s = Some b → PyStr.isspace b = false →
  sanitize_filename s = s.
Proof.
  intros Hc Ha Hsa Hb Hsb. rewrite sanitize_filename_unfold. simpl.
  rewrite sub_runs_clean by done.
  unfold PyStr.strip. rewrite (strip_by_keep _ s a b) by done.
  case_decide; [by subst|done].
Qed.

Lemma clean_no_sep s : clean s → OsPath.sep ∉ s.
Proof. intros H Hin. eapply Forall_forall in H; [|done]. done. Qed.

(** ** [force_mp4_name] *)

Lemma force_mp4_name_unfold base :
  force_mp4_name base = (OsPath.splitext (sanitize_filename base)).1 ++ py ".mp4".
Proof. unfold force_mp4_name. by destruct (OsPath.splitext _). Qed.

(** Names of the form [stem.mp4], with a clean stem that starts with no
    blank, are sanitized to themselves. *)
Lemma sanitize_stem_mp4 stem c :
  clean stem → head stem = Some c → PyStr.isspace c = false →
  sanitize_filename (stem ++ py ".mp4") = stem ++ py ".mp4".
Proof.
  intros Hc Hh Hs. apply (sanitize_filename_fixed _ c 52%N); try done.
  - apply Forall_app. split; [done|by repeat constructor].
  - destruct stem; [done|]. done.
  - by rewrite last_app.
Qed.

Lemma stem_of_sanitized base :
  let stem := (OsPath.splitext (sanitize_filename base)).1 in
  clean stem ∧
  (stem ≠ [] → ∃ c, head stem = Some c ∧ PyStr.isspace c = false).
Proof.
  simpl. destruct (splitext_prefix (sanitize_filename base)) as [k Hk].
  pose proof (sanitize_filename_clean base) as Hc.
  pose proof (sanitize_filename_head base) as Hh.
  rewrite Hk in Hc, Hh. apply Forall_app in Hc as [Hc _]. split; [done|].
  destruct (OsPath.splitext _).1 as [|c r]; [done|]. intros _.
  exists c. split; [done|]. by apply Hh.
Qed.

Lemma mp4_no_dot : OsPath.extsep ∉ py "mp4".
Proof. apply (bool_decide_unpack _). by vm_compute. Qed.

Lemma force_mp4_name_twice base :
  ¬ all_dots (sanitize_filename base) →
  force_mp4_name (force_mp4_name base) = force_mp4_name base.
Proof.
  intros Hd. rewrite (force_mp4_name_unfold base).
  pose proof (stem_of_sanitized base) as [Hc Hh]. simpl in Hc, Hh.
  pose proof (splitext_stem_non_dot _
                (clean_no_sep _ (sanitize_filename_clean base)) Hd) as Hnd.
  set (stem := (OsPath.splitext (sanitize_filename base)).1) in *.
  destruct Hh as (c & Hhc & Hsc). { intros ->. apply Hnd. constructor. }
  rewrite force_mp4_name_unfold, (sanitize_stem_mp4 stem c) by done.
  change (py ".mp4") with (OsPath.extsep :: py "mp4").
  rewrite splitext_last_dot.
  - by apply has_non_dot_true in Hnd as ->.
  - by apply clean_no_sep.
  - by apply clean_no_sep; repeat constructor.
  - apply mp4_no_dot.
Qed.

Lemma force_mp4_name_dots base :
  all_dots (sanitize_filename base) →
  force_mp4_name (force_mp4_name base) = force_mp4_name base ++ py ".mp4".
Proof.
  intros Hd. rewrite (force_mp4_name_unfold base).
  pose proof (sanitize_filename_nonempty base) as Hne.
  pose proof (sanitize_filename_clean base) as Hc.
  rewrite (splitext_all_dots _ Hne Hd). simpl.
  set (t := sanitize_filename base) in *.
  assert (head t = Some OsPath.extsep) as Hh.
  { destruct t as [|c r]; [done|]. by apply Forall_cons in Hd as [-> _]. }
  rewrite force_mp4_name_unfold, (sanitize_stem_mp4 t OsPath.extsep) by done.
  change (py ".mp4") with (OsPath.extsep :: py "mp4").
  rewrite splitext_last_dot.
  - by apply has_non_dot_false in Hd as ->.
  - by apply clean_no_sep.
  - by apply clean_no_sep; repeat constructor.
  - apply mp4_no_dot.
Qed.

(** ** Binary64 arithmetic of [human_size] *)

Lemma fexp64 e : fexp 53 1024 e = Z.max (e - 53) (-1074).
Proof. reflexivity. Qed.

Lemma binary_round_aux_canonical s m e :
  Z.pos (digits2_pos m) = 53%Z → (-1074 <= e <= 971)%Z →
  binary_round_aux 53 1024 s (Z.pos m) e loc_Exact = S754_finite s m e.
Proof.
  intros Hd He. unfold binary_round_aux, shr_fexp. 
  cbn [Zdigits2 shr_record_of_loc]. rewrite Hd, fexp64.
  replace (Z.max (53 + e - 53) (-1074) - e)%Z with 0%Z by lia.
  cbn [shr shr_m loc_of_shr_record round_nearest_even Zdigits2]. rewrite Hd, fexp64.
  replace (Z.max (53 + e - 53) (-1074) - e)%Z with 0%Z by lia.
  cbn [shr shr_m]. 
  destruct (Z.leb_spec e (1024 - 53)); [done|lia].
Qed.

Lemma digits2_pos_iter_xO p k :
  digits2_pos (Pos.iter xO p k) = (digits2_pos p + k)%positive.
Proof.
  induction k using Pos.peano_ind.
  - simpl. lia.
  - rewrite Pos.iter_succ. simpl. rewrite IHk. lia.
Qed.

Lemma pos_iter_xO p k : Z.pos (Pos.iter xO p k) = (Z.pos p * 2 ^ Z.pos k)%Z.
Proof.
  induction k using Pos.peano_ind.
  - simpl. lia.
  - rewrite Pos.iter_succ, Pos2Z.inj_xO, IHk, Pos2Z.inj_succ, Z.pow_succ_r by lia. lia.
Qed.

(** [float(n)] is exact below 2^53. *)
Lemma round_int_exact p :
  let d := Z.pos (digits2_pos p) in
  (d <= 53)%Z →
  ∃ m, PyFloat.round_int (Z.pos p) = S754_finite false m (d - 53)
       ∧ Z.pos (digits2_pos m) = 53%Z
       ∧ Z.pos m = (Z.pos p * 2 ^ (53 - d))%Z.
Proof.
  intros d Hd. unfold PyFloat.round_int, binary_normalize, binary_round.
  unfold PyFloat.prec, PyFloat.emax. fold d. rewrite fexp64.
  replace (Z.max (d + 0 - 53) (-1074))%Z with (d - 53)%Z by lia.
  unfold shl_align. rewrite Z.sub_0_r.
  destruct (d - 53)%Z as [|k|k] eqn:Hk; [| lia |].
  - exists p. rewrite binary_round_aux_canonical by lia.
    split; [done|]. split; [lia|]. replace (53 - d)%Z with 0%Z by lia. lia.
  - exists (Pos.iter xO p k).
    assert (Z.pos (digits2_pos (Pos.iter xO p k)) = 53%Z) as Hdk.
    { rewrite digits2_pos_iter_xO. lia. }
    rewrite binary_round_aux_canonical by lia.
    split; [done|]. split; [done|]. rewrite pos_iter_xO. f_equal. f_equal. lia.
Qed.

Lemma step_eq : step = S754_finite false 4503599627370496 (-42).
Proof. by vm_compute. Qed.

Lemma div_eucl_exact a b : (0 < b)%Z → Z.div_eucl (a * b) b = (a, 0%Z).
Proof.
  intros Hb. pose proof (Z.div_mul a b ltac:(lia)) as Hq.
  pose proof (Z.mod_mul a b ltac:(lia)) as Hr.
  unfold Z.div, Z.modulo in Hq, Hr. destruct (Z.div_eucl (a * b) b). simpl in *. congruence.
Qed.

Lemma div_step m e :
  Z.pos (digits2_pos m) = 53%Z → (-1063 <= e <= 971)%Z →
  PyFloat.div (S754_finite false m e) step = Ok (S754_finite false m (e - 10)).
Proof.
  intros Hd He. rewrite step_eq. unfold PyFloat.div. cbn [PyFloat.is_zero].
  f_equal. unfold SFdiv, SFdiv_core_binary, PyFloat.prec, PyFloat.emax.
  cbn [Zdigits2 xorb]. rewrite Hd.
  change (Z.pos (digits2_pos 4503599627370496)) with 53%Z.
  rewrite fexp64.
  replace (Z.min (Z.max (53 + e - (53 + -42) - 53) (-1074)) (e - -42))%Z with (e - 11)%Z by lia.
  replace (e - -42 - (e - 11))%Z with 53%Z by lia.
  rewrite Z.shiftl_mul_pow2 by lia.
  replace (Z.pos m * 2 ^ 53)%Z with ((Z.pos m~0) * 4503599627370496)%Z by lia.
  rewrite div_eucl_exact by lia.
  change (new_location 4503599627370496 0) with loc_Exact.
  unfold binary_round_aux, shr_fexp.
  cbn [Zdigits2 digits2_pos shr_record_of_loc]. 
  replace (Z.pos (Pos.succ (digits2_pos m))) with 54%Z by lia.
  rewrite fexp64.
  replace (Z.max (54 + (e - 11) - 53) (-1074) - (e - 11))%Z with 1%Z by lia.
  cbn [shr SpecFloat.iter_pos shr_1 shr_m loc_of_shr_record round_nearest_even orb Zdigits2].
  rewrite Hd, fexp64.
  replace (Z.max (53 + (e - 11 + 1) - 53) (-1074) - (e - 11 + 1))%Z with 0%Z by lia.
  cbn [shr shr_m].
  replace (e - 11 + 1)%Z with (e - 10)%Z by lia.
  destruct (Z.leb_spec (e - 10) (1024 - 53)); [done|lia].
Qed.

Lemma digits2_pos_size m : digits2_pos m = Pos.size m.
Proof. induction m; simpl; congruence. Qed.

Lemma digits53_lower m : Z.pos (digits2_pos m) = 53%Z → (4503599627370496 <= m)%positive.
Proof.
  intros Hd. pose proof (Pos.size_le m) as Hs. rewrite <- digits2_pos_size in Hs.
  assert (digits2_pos m = 53%positive) as Hd53 by lia. rewrite Hd53 in Hs.
  assert ((2 ^ 53)%positive = 9007199254740992%positive) as Hp by (by vm_compute).
  rewrite Hp in Hs. lia.
Qed.

Lemma ltb_step m e :
  Z.pos (digits2_pos m) = 53%Z →
  PyFloat.ltb (S754_finite false m e) step = (e <? -42)%Z.
Proof.
  intros Hd. rewrite step_eq. unfold PyFloat.ltb, SFltb, SFcompare, Z.ltb.
  destruct (e ?= -42)%Z; try reflexivity.
  rewrite Pos.compare_cont_spec. unfold Pos.switch_Eq.
  pose proof (digits53_lower m Hd) as Hm.
  destruct (m ?= 4503599627370496)%positive eqn:Hc; try reflexivity.
  exfalso. change (m < 4503599627370496)%positive in Hc. by apply Pos.lt_nle in Hc.
Qed.

Lemma round_half_even_scale m s e :
  (0 <= s)%Z → (e <= 0)%Z →
  PyFloat.round_half_even (m * 2 ^ s) (e - s) = PyFloat.round_half_even m e.
Proof.
  intros Hs He. unfold PyFloat.round_half_even.
  destruct (Z.leb_spec 0 (e - s)) as [H|H].
  - assert (e = 0 ∧ s = 0)%Z as [-> ->] by lia. simpl. lia.
  - assert (0 < 2 ^ s)%Z as Hps by (apply Z.pow_pos_nonneg; lia).
    assert (0 < 2 ^ (- e))%Z as Hpe by (apply Z.pow_pos_nonneg; lia).
    replace (- (e - s))%Z with (- e + s)%Z by lia.
    rewrite Z.pow_add_r by lia.
    set (d := (2 ^ (- e))%Z) in *. set (ps := (2 ^ s)%Z) in *.
    rewrite Z.div_mul_cancel_r by lia.
    rewrite Z.mul_mod_distr_r by lia.
    rewrite Z.mul_assoc, <- Zmult_compare_compat_r by lia.
    destruct (Z.leb_spec 0 e) as [He0|He0]; [|done].
    assert (e = 0)%Z by lia. subst e d. simpl.
    rewrite Z.mod_1_r, Z.div_1_r. simpl. lia.
Qed.

Lemma digits_le_iff p t :
  (0 <= t)%Z → (Z.pos p < 2 ^ t)%Z ↔ (Z.pos (digits2_pos p) <= t)%Z.
Proof.
  intros Ht. rewrite digits2_pos_size.
  pose proof (Pos.size_gt p) as Hgt. pose proof (Pos.size_le p) as Hle.
  apply Pos2Z.pos_lt_pos in Hgt. apply Pos2Z.pos_le_pos in Hle.
  rewrite Pos2Z.inj_pow in Hgt, Hle. rewrite Pos2Z.inj_xO in Hle.
  change (2 * 1)%Z with 2%Z in Hle.
  set (d := Z.pos (Pos.size p)) in *. assert (0 < d)%Z by lia.
  split; intros H0.
  - destruct (Z.le_gt_cases d t) as [|Hdt]; [done|].
    assert (2 ^ t <= 2 ^ (d - 1))%Z by (apply Z.pow_le_mono_r; lia).
    assert (2 ^ d = 2 * 2 ^ (d - 1))%Z as Hd.
    { rewrite <- Z.pow_succ_r by lia. f_equal. lia. }
    lia.
  - assert (2 ^ d <= 2 ^ t)%Z by (apply Z.pow_le_mono_r; lia). lia.
Qed.

Lemma human_size_loop_float us m e :
  Z.pos (digits2_pos m) = 53%Z → (e <= 971)%Z → (-1063 <= e)%Z →
  human_size_loop us (NFloat (S754_finite false m e)) =
    Ok (PyStr.of_int (PyFloat.round_half_even (Z.pos m) (loop_exponent us e).1)
          ++ py " " ++ (loop_exponent us e).2).
Proof.
  intros Hd. revert e. induction us as [|u rest IH]; intros e He1 He2.
  - done.
  - cbn [human_size_loop loop_exponent num_ltb]. rewrite ltb_step by done.
    destruct (Z.ltb_spec e (-42)) as [Hlt|Hge]; [done|].
    unfold num_div. cbn [num_float mbind result_bind].
    rewrite div_step by (done || lia). cbn [mbind result_bind].
    apply IH; lia.
Qed.

Lemma int_ltb_step n : PyFloat.int_ltb n step = (n <? 1024)%Z.
Proof.
  rewrite step_eq. unfold PyFloat.int_ltb, cond_Zopp.
  change (0 <=? -42)%Z with false. cbv iota.
  change (2 ^ (- -42))%Z with 4398046511104%Z.
  destruct (Z.ltb_spec n 1024), (Z.ltb_spec (n * 4398046511104) 4503599627370496); lia.
Qed.

Lemma pos_lt_pow_digits p t :
  (0 <= t)%Z → (Z.pos p <? 2 ^ t)%Z = (Z.pos (digits2_pos p) <=? t)%Z.
Proof.
  intros Ht. pose proof (digits_le_iff p t Ht).
  destruct (Z.ltb_spec (Z.pos p) (2 ^ t)), (Z.leb_spec (Z.pos (digits2_pos p)) t); lia.
Qed.

Lemma human_size_loop_cons u rest n :
  human_size_loop (u :: rest) n =
    if num_ltb n step then num_format n u
    else n' ← num_div n step; human_size_loop rest n'.
Proof. done. Qed.

Lemma human_size_exact n :
  (0 <= n < 2 ^ 53)%Z → human_size n = Ok (rendered n (unit_index n)).
Proof.
  intros [Hn0 Hn]. destruct n as [|p|p]; [by vm_compute| |lia].
  set (d := Z.pos (digits2_pos p)).
  assert (d <= 53)%Z as Hd by (by apply digits_le_iff).
  assert (0 < d)%Z as Hd0 by (unfold d; lia).
  destruct (round_int_exact p Hd) as (m & Hr & Hm53 & Hm). fold d in Hr, Hm.
  assert (PyFloat.of_int (Z.pos p) = Ok (S754_finite false m (d - 53))) as Hof.
  { unfold PyFloat.of_int. by rewrite Hr. }
  assert (∀ e, (e <= 0)%Z →
    PyFloat.round_half_even (Z.pos m) (e - (53 - d)) = PyFloat.round_half_even (Z.pos p) e) as Hrhe.
  { intros e He. rewrite Hm. apply round_half_even_scale; lia. }
  unfold human_size, units, unit_index, rendered, all_units, units.
  rewrite human_size_loop_cons. cbn [num_ltb smallest_unit]. rewrite int_ltb_step.
  change (1024 ^ (Z.of_nat 0 + 1))%Z with (2 ^ 10)%Z.
  change (1024 ^ (Z.of_nat 1 + 1))%Z with (2 ^ 20)%Z.
  change (1024 ^ (Z.of_nat 2 + 1))%Z with (2 ^ 30)%Z.
  change (1024 ^ (Z.of_nat 3 + 1))%Z with (2 ^ 40)%Z.
  change (1024 ^ (Z.of_nat 4 + 1))%Z with (2 ^ 50)%Z.
  change 1024%Z with (2 ^ 10)%Z at 1.
  rewrite !pos_lt_pow_digits by lia. fold d.
  destruct (Z.leb_spec d 10) as [H10|H10].
  { unfold num_format. cbn [num_float]. rewrite Hof. cbn [mbind result_bind PyFloat.format_f0].
    replace (d - 53)%Z with (0 - (53 - d))%Z by lia. rewrite Hrhe by lia. done. }
  unfold num_div. cbn [num_float]. rewrite Hof. cbn [mbind result_bind].
  rewrite div_step by (done || lia). cbn [mbind result_bind].
  rewrite human_size_loop_float by (done || lia).
  cbn [loop_exponent].
  destruct (Z.leb_spec d 20) as [H20|H20].
  { destruct (Z.ltb_spec (d - 53 - 10) (-42)); [|lia]. cbn [fst snd].
    replace (d - 53 - 10)%Z with (-10 - (53 - d))%Z by lia. rewrite Hrhe by lia. done. }
  destruct (Z.ltb_spec (d - 53 - 10) (-42)); [lia|].
  destruct (Z.leb_spec d 30) as [H30|H30].
  { destruct (Z.ltb_spec (d - 53 - 10 - 10) (-42)); [|lia]. cbn [fst snd].
    replace (d - 53 - 10 - 10)%Z with (-20 - (53 - d))%Z by lia. rewrite Hrhe by lia. done. }
  destruct (Z.ltb_spec (d - 53 - 10 - 10) (-42)); [lia|].
  destruct (Z.leb_spec d 40) as [H40|H40].
  { destruct (Z.ltb_spec (d - 53 - 10 - 10 - 10) (-42)); [|lia]. cbn [fst snd].
    replace (d - 53 - 10 - 10 - 10)%Z with (-30 - (53 - d))%Z by lia. rewrite Hrhe by lia. done. }
  destruct (Z.ltb_spec (d - 53 - 10 - 10 - 10) (-42)); [lia|].
  destruct (Z.leb_spec d 50) as [H50|H50].
  { destruct (Z.ltb_spec (d - 53 - 10 - 10 - 10 - 10) (-42)); [|lia]. cbn [fst snd].
    replace (d - 53 - 10 - 10 - 10 - 10)%Z with (-40 - (53 - d))%Z by lia. rewrite Hrhe by lia. done. }
  destruct (Z.ltb_spec (d - 53 - 10 - 10 - 10 - 10) (-42)); [lia|]. cbn [fst snd].
  replace (d - 53 - 10 - 10 - 10 - 10 - 10)%Z with (-50 - (53 - d))%Z by lia. rewrite Hrhe by lia. done.
Qed.

Lemma unit_index_smallest n :
  ((unit_index n < 5)%nat → (n < 1024 * 1024 ^ Z.of_nat (unit_index n))%Z) ∧
  (∀ j, (j < unit_index n)%nat → (1024 * 1024 ^ Z.of_nat j <= n)%Z).
Proof.
  assert (∀ j, (j < 5)%nat → (1024 * 1024 ^ Z.of_nat j)%Z = (1024 ^ (Z.of_nat j + 1))%Z) as Hpow.
  { intros j Hj. rewrite Z.pow_add_r, Z.pow_1_r by lia. lia. }
  unfold unit_index. cbn [smallest_unit].
  destruct (Z.ltb_spec n (1024 ^ (Z.of_nat 0 + 1))) as [H0|H0].
  { split; [intros _; by rewrite Hpow by lia|intros j Hj; lia]. }
  destruct (Z.ltb_spec n (1024 ^ (Z.of_nat 1 + 1))) as [H1|H1].
  { split; [intros _; by rewrite Hpow by lia|].
    intros j Hj. assert (j = 0)%nat as -> by lia. by rewrite Hpow by lia. }
  destruct (Z.ltb_spec n (1024 ^ (Z.of_nat 2 + 1))) as [H2|H2].
  { split; [intros _; by rewrite Hpow by lia|].
    intros j Hj. assert (j = 0 ∨ j = 1)%nat as [-> | ->] by lia; by rewrite Hpow by lia. }
  destruct (Z.ltb_spec n (1024 ^ (Z.of_nat 3 + 1))) as [H3|H3].
  { split; [intros _; by rewrite Hpow by lia|].
    intros j Hj. assert (j = 0 ∨ j = 1 ∨ j = 2)%nat as [-> | [-> | ->]] by lia; by rewrite Hpow by lia. }
  destruct (Z.ltb_spec n (1024 ^ (Z.of_nat 4 + 1))) as [H4|H4].
  { split; [intros _; by rewrite Hpow by lia|].
    intros j Hj. assert (j = 0 ∨ j = 1 ∨ j = 2 ∨ j = 3)%nat as [-> | [-> | [-> | ->]]] by lia;
      by rewrite Hpow by lia. }
  split; [lia|].
  intros j Hj.
  assert (j = 0 ∨ j = 1 ∨ j = 2 ∨ j = 3 ∨ j = 4)%nat as [-> | [-> | [-> | [-> | ->]]]] by lia;
    by rewrite Hpow by lia.
Qed.

Lemma sub_runs_one_run a r b :
  clean a → r ≠ [] → Forall (λ c, is_forbidden c = true) r → clean b →
  PyStr.sub_runs is_forbidden (py "_") false (a ++ r ++ b) = a ++ py "_" ++ b.
Proof.
  intros Ha Hr Hf Hb. induction Ha as [|c a Hc _ IH]; simpl.
  - destruct Hf as [|c r Hc Hf]; [done|]. simpl. rewrite Hc. simpl. f_equal.
    clear Hr. induction Hf as [|c' r Hc' _ IH]; simpl.
    + by apply sub_runs_clean.
    + by rewrite Hc'.
  - rewrite Hc. by f_equal.
Qed.

Lemma is_forbidden_true c : is_forbidden c = true ↔ c ∈ forbidden_chars.
Proof.
  unfold is_forbidden, PyStr.mem. rewrite existsb_exists. split.
  - intros (x & Hx & ->%N.eqb_eq). by apply list_elem_of_In.
  - intros H. exists c. split; [by apply list_elem_of_In|apply N.eqb_refl].
Qed.

(** C6: [sanitize_filename] replaces the forbidden characters by an
    underscore (one for each run of them), trims the white space at both
    ends and answers "video" when nothing is left; so
    sanitize_filename("a/b:c*d") = "a_b_c_d", sanitize_filename("   ") =
    "video", and for every input the result is not empty, holds no
    forbidden character and neither starts nor ends with white space. *)
Theorem sanitize_filename_spec :
  sanitize_filename (py "a/b:c*d") = py "a_b_c_d" ∧
  sanitize_filename (py "   ") = py "video" ∧
  ∀ name,
    sanitize_filename name =
      (let cleaned := PyStr.strip (PyStr.sub_runs is_forbidden (py "_") false name) in
       if decide (cleaned = []) then py "video" else cleaned) ∧
    (∀ a r b, clean a → r ≠ [] → Forall (λ c, c ∈ forbidden_chars) r → clean b →
       name = a ++ r ++ b →
       PyStr.sub_runs is_forbidden (py "_") false name = a ++ py "_" ++ b) ∧
    sanitize_filename name ≠ [] ∧
    Forall (λ c, c ∉ forbidden_chars) (sanitize_filename name) ∧
    (∀ c, head (sanitize_filename name) = Some c ∨ last (sanitize_filename name) = Some c →
       PyStr.isspace c = false).
Proof.
  split; [done|]. split; [done|]. intros name.
  split; [apply sanitize_filename_unfold|].
  split.
  { intros a r b Ha Hr Hf Hb ->. apply sub_runs_one_run; try done.
    eapply Forall_impl; [done|]. intros c Hc. by apply is_forbidden_true. }
  split; [apply sanitize_filename_nonempty|].
  split.
  { eapply Forall_impl; [apply sanitize_filename_clean|].
    intros c Hc Hin. apply is_forbidden_true in Hin. congruence. }
  intros c [H|H]; [by eapply sanitize_filename_head|by eapply sanitize_filename_last].
Qed.

(** C4 (amended): [force_mp4_name] sanitizes, drops the extension that
    [os.path.splitext] finds and appends ".mp4"; force_mp4_name("clip.mkv")
    = "clip.mp4" and force_mp4_name("") = "video.mp4"; applying it twice
    gives the same as once exactly when the sanitized name is not made of
    dots only. *)
Theorem force_mp4_name_idempotent_iff :
  force_mp4_name (py "clip.mkv") = py "clip.mp4" ∧
  force_mp4_name (py "") = py "video.mp4" ∧
  ∀ base,
    force_mp4_name base = (OsPath.splitext (sanitize_filename base)).1 ++ py ".mp4" ∧
    (¬ all_dots (sanitize_filename base) →
       force_mp4_name (force_mp4_name base) = force_mp4_name base) ∧
    (all_dots (sanitize_filename base) →
       force_mp4_name (force_mp4_name base) ≠ force_mp4_name base).
Proof.
  split; [done|]. split; [done|]. intros base.
  split; [apply force_mp4_name_unfold|].
  split; [apply force_mp4_name_twice|].
  intros Hd. rewrite force_mp4_name_dots by done.
  intros Heq. apply (f_equal length) in Heq. rewrite length_app in Heq.
  change (length (py ".mp4")) with 4%nat in Heq. lia.
Qed.

Lemma force_mp4_name_idempotent_iff_witness :
  force_mp4_name (force_mp4_name (py "clip.mkv")) = force_mp4_name (py "clip.mkv").
Proof.
  apply (proj1 (proj2 (proj2 (proj2 force_mp4_name_idempotent_iff) (py "clip.mkv")))).
  unfold all_dots. intros H. apply Forall_cons in H as [H _]. vm_compute in H. discriminate.
Defined.

(** C4, as stated, fails: the name "." gives "..mp4", and "..mp4" gives
    "..mp4.mp4". *)
Lemma force_mp4_name_not_idempotent :
  force_mp4_name (py ".") = py "..mp4" ∧
  force_mp4_name (force_mp4_name (py ".")) = py "..mp4.mp4" ∧
  force_mp4_name (force_mp4_name (py ".")) ≠ force_mp4_name (py ".").
Proof. split; [done|]. split; [done|]. vm_compute. discriminate. Qed.




(** ** The progress hook *)

Lemma hook_percent_eff s :
  emitted (_hook_percent s) = progress_events s ∧ outcome (_hook_percent s) = Ok tt.
Proof.
  unfold _hook_percent, progress_events, try_except.
  change (x ← PyFloat.of_str (PyStr.strip_chars (py "%") s); PyFloat.to_int x)
    with (percent_of s).
  destruct (percent_of s) as [n|e]; done.
Qed.

Lemma bind_lift_ok {A B} (a : A) (k : A → Eff B) : (lift (Ok a) ≫= k) = k a.
Proof. unfold mbind, Eff_bind, lift. cbn. by destruct (k a). Qed.

Lemma bind_lift_raise {A B} e (k : A → Eff B) : (lift (Raise e) ≫= k) = mkEff [] (Raise e).
Proof. done. Qed.

Lemma bind_ok {A B} (m : Eff A) (k : A → Eff B) a :
  outcome m = Ok a →
  emitted (m ≫= k) = emitted m ++ emitted (k a) ∧ outcome (m ≫= k) = outcome (k a).
Proof. unfold mbind, Eff_bind. by intros ->. Qed.

Lemma bind_raise {A B} (m : Eff A) (k : A → Eff B) e :
  outcome m = Raise e →
  emitted (m ≫= k) = emitted m ∧ outcome (m ≫= k) = Raise e.
Proof. unfold mbind, Eff_bind. by intros ->. Qed.



(** Whatever the tick holds, the sizes part puts one [log] event or
    raises having put nothing. *)
Lemma hook_sizes_cases d :
  (∃ msg, _hook_sizes d = mkEff [(py "log", msg)] (Ok tt)) ∨
  (∃ e, _hook_sizes d = mkEff [] (Raise e)).
Proof.
  unfold _hook_sizes.
  destruct (PyVal.int (PyVal.or (PyVal.get d "downloaded_bytes") (VInt 0))) as [dn|e];
    [rewrite bind_lift_ok|right; by exists e].
  destruct (PyVal.int _) as [tot|e]; [rewrite bind_lift_ok|right; by exists e].
  destruct (human_size dn) as [s|e]; [rewrite bind_lift_ok|right; by exists e].
  destruct (tot =? 0)%Z.
  - left. by exists s.
  - destruct (human_size tot) as [t|e].
    + left. by exists (s ++ py " / " ++ t).
    + right. by exists e.
Qed.

Lemma hook_downloading d v :
  downloading d →
  PyVal.or (PyVal.get d "_percent_str") (VStr (py "0%")) = VStr v →
  emitted (_hook d) = progress_events (PyStr.strip v) ++ emitted (_hook_sizes d) ∧
  outcome (_hook d) = outcome (_hook_sizes d).
Proof.
  intros Hs Hv. unfold _hook. rewrite Hs, Hv. cbn [PyVal.eq_str PyVal.strip].
  rewrite bool_decide_eq_true_2 by done. rewrite bind_lift_ok.
  destruct (hook_percent_eff (PyStr.strip v)) as [He Ho].
  destruct (bind_ok _ (λ _, _hook_sizes d) _ Ho) as [-> ->]. by rewrite He.
Qed.

(** The payload of every [progress] event of the hook is [str(n)] for
    some [n] from 0 to 100. *)
Lemma progress_events_range s ev :
  ev ∈ progress_events s → ev.1 = py "progress" ∧ ∃ n, (0 <= n <= 100)%Z ∧ ev.2 = PyStr.of_int n.
Proof.
  unfold progress_events. destruct (percent_of s) as [n|e]; [|by intros ?%elem_of_nil].
  intros ->%list_elem_of_singleton. split; [done|].
  exists (Z.max 0 (Z.min 100 n)). split; [lia|done].
Qed.

Lemma hook_sizes_kind d ev : ev ∈ emitted (_hook_sizes d) → ev.1 = py "log".
Proof.
  destruct (hook_sizes_cases d) as [[msg ->]|[e ->]]; cbn [emitted].
  - by intros ->%list_elem_of_singleton.
  - by intros ?%elem_of_nil.
Qed.

Lemma hook_finished_eff :
  (_ ← put (py "progress", py "100"); put (py "log", py "Постобработка (mp4)…"))
  = mkEff [(py "progress", py "100"); (py "log", py "Постобработка (mp4)…")] (Ok tt).
Proof. done. Qed.

Lemma hook_events d ev :
  ev ∈ emitted (_hook d) →
  (ev.1 = py "progress" ∧ ∃ n, (0 <= n <= 100)%Z ∧ ev.2 = PyStr.of_int n) ∨ ev.1 = py "log".
Proof.
  unfold _hook. destruct (PyVal.eq_str _ (py "downloading")) eqn:Hs.
  - destruct (PyVal.strip _) as [v|e].
    + rewrite bind_lift_ok.
      destruct (hook_percent_eff v) as [He Ho].
      destruct (bind_ok _ (λ _, _hook_sizes d) _ Ho) as [-> _]. rewrite He.
      rewrite elem_of_app.
      intros [H|H]; [left; by apply (progress_events_range v)|right; by apply (hook_sizes_kind d)].
    + rewrite bind_lift_raise. cbn [emitted]. by intros ?%elem_of_nil.
  - destruct (PyVal.eq_str _ (py "finished")).
    + rewrite hook_finished_eff. cbn [emitted].
      rewrite !elem_of_cons, elem_of_nil. intros [->|[->|[]]]; [left|by right].
      split; [done|]. exists 100%Z. split; [lia|done].
    + cbn [emitted mret Eff_ret]. by intros ?%elem_of_nil.
Qed.




(** C9: a tick with status "downloading" whose percent field is missing
    or [None] is not dropped: "0%" stands in for it and the hook puts the
    progress event "0" before it reports the sizes. *)
Theorem hook_default_percent d :
  downloading d →
  d !! "_percent_str" = None ∨ d !! "_percent_str" = Some VNone →
  emitted (_hook d) = (py "progress", py "0") :: emitted (_hook_sizes d) ∧
  outcome (_hook d) = outcome (_hook_sizes d).
Proof.
  intros Hd Hp.
  assert (PyVal.or (PyVal.get d "_percent_str") (VStr (py "0%")) = VStr (py "0%")) as Hv.
  { unfold PyVal.get. by destruct Hp as [-> | ->]. }
  destruct (hook_downloading d _ Hd Hv) as [He Ho]. split; [|done].
  rewrite He.
  assert (progress_events (PyStr.strip (py "0%")) = [(py "progress", py "0")]) as ->
    by (by vm_compute).
  done.
Qed.

Lemma hook_default_percent_witness :
  emitted (_hook (tick [("downloaded_bytes", VInt 2048)]))
    = [(py "progress", py "0"); (py "log", py "2 KB")].
Proof.
  refine (eq_trans (proj1 (hook_default_percent (tick [("downloaded_bytes", VInt 2048)]) _ _)) _).
  - by vm_compute.
  - left. by vm_compute.
  - by vm_compute.
Defined.




(** ** Effects *)

Lemma bind_emitted {A B} (m : Eff A) (k : A → Eff B) ev :
  ev ∈ emitted (m ≫= k) →
  ev ∈ emitted m ∨ ∃ a, outcome m = Ok a ∧ ev ∈ emitted (k a).
Proof.
  unfold mbind, Eff_bind. destruct (outcome m) as [a|e]; cbn [emitted].
  - rewrite elem_of_app. intros [H|H]; [by left|right; by exists a].
  - by left.
Qed.

Lemma try_except_ok {A} (body : Eff A) handler a :
  outcome body = Ok a → try_except body handler = body.
Proof. unfold try_except. by intros ->. Qed.

Lemma try_except_raise {A} (body : Eff A) handler e :
  outcome body = Raise e →
  try_except body handler =
    mkEff (emitted body ++ emitted (handler e)) (outcome (handler e)).
Proof. unfold try_except. by intros ->. Qed.

Lemma filter_none {A} (P : A → Prop) `{!∀ x, Decision (P x)} (l : list A) :
  (∀ x, x ∈ l → ¬ P x) → filter P l = [].
Proof.
  induction l as [|x l IH]; intros Hl; [done|].
  rewrite filter_cons_False by (apply Hl; left).
  apply IH. intros y Hy. apply Hl. by right.
Qed.

(** ** [Downloader.download] and [worker] *)

Lemma run_hooks_kinds ts ev :
  ev ∈ emitted (run_hooks _hook ts) → ev.1 = py "progress" ∨ ev.1 = py "log".
Proof.
  induction ts as [|d rest IH]; cbn [run_hooks].
  - by intros ?%elem_of_nil.
  - intros [H|(a & _ & H)]%bind_emitted; [|by apply IH].
    destruct (hook_events d ev H) as [[Hk _]|Hk]; [by left|by right].
Qed.

Section Downloader_properties.
Context {E : Env}.

Lemma download_not_terminal req w ev : ev ∈ emitted (download req w) → ¬ terminal ev.
Proof.
  unfold download.
  intros [H|(w1 & _ & H)]%bind_emitted; [by apply elem_of_nil in H|].
  apply bind_emitted in H as [H|(_ & _ & H)].
  { apply list_elem_of_singleton in H as ->. intros [H|H]; vm_compute in H; discriminate. }
  apply bind_emitted in H as [H|(_ & _ & H)].
  { apply run_hooks_kinds in H as [H|H]; intros [H'|H']; rewrite H in H';
      vm_compute in H'; discriminate. }
  apply bind_emitted in H as [H|(info & _ & H)]; [by apply elem_of_nil in H|].
  destruct info; try (by apply elem_of_nil in H);
    (apply bind_emitted in H as [H|(p & _ & H)]; by apply elem_of_nil in H).
Qed.

Lemma filter_terminal_download req w : filter terminal (emitted (download req w)) = [].
Proof.
  apply filter_none. intros ev Hin. by apply (download_not_terminal req w).
Qed.

Lemma worker_done req w path :
  outcome (download req w) = Ok path →
  worker req w = mkEff (emitted (download req w) ++ [(py "done", Pathlib.to_str path)]) (Ok tt).
Proof.
  intros Ho. unfold worker.
  destruct (bind_ok (download req w) (λ result, put (py "done", Pathlib.to_str result)) _ Ho)
    as [He Ho'].
  rewrite (try_except_ok _ _ tt) by done.
  destruct (download req w ≫= _) as [evs o]. cbn in *. by subst.
Qed.

Lemma worker_error req w e :
  outcome (download req w) = Raise e →
  worker req w = mkEff (emitted (download req w) ++ [(py "error", exn_msg e)]) (Ok tt).
Proof.
  intros Ho. unfold worker.
  destruct (bind_raise (download req w) (λ result, put (py "done", Pathlib.to_str result)) _ Ho)
    as [He Ho'].
  rewrite (try_except_raise _ _ e) by done. by rewrite He.
Qed.

End Downloader_properties.

(** ** The event loop *)

Lemma handle_event_events ev a : _events (handle_event ev a) = _events a.
Proof.
  destruct ev as [kind payload]. unfold handle_event.
  repeat case_bool_decide; try done. by destruct (int_of_str payload).
Qed.

Lemma foldl_handle_events q a :
  _events (foldl (λ a ev, handle_event ev a) a q) = _events a.
Proof.
  revert a. induction q as [|ev q IH]; intros a; [done|].
  cbn [foldl]. by rewrite IH, handle_event_events.
Qed.

Lemma poll_queue_events a : _events (_poll_queue a) = [].
Proof. unfold _poll_queue. cbn [after _events]. by rewrite foldl_handle_events. Qed.

Lemma poll_queue_last a q ev :
  _events a = q ++ [ev] →
  ∃ a', _poll_queue a = after POLL_MS (handle_event ev a').
Proof.
  intros Hq. unfold _poll_queue. rewrite Hq, foldl_app. by eexists.
Qed.

Lemma set_events_same a : set_events (_events a) a = a.
Proof. by destruct a. Qed.

Lemma sys_put_all a evs :
  rtc sys_step (mkSys a evs) (mkSys (set_events (_events a ++ evs) a) []).
Proof.
  revert a. induction evs as [|ev evs IH]; intros a.
  - rewrite app_nil_r, set_events_same. done.
  - eapply rtc_l; [apply step_put|].
    specialize (IH (set_events (_events a ++ [ev]) a)).
    cbn [_events set_events] in IH. rewrite <- app_assoc in IH. apply IH.
Qed.

(** What the loop has reached when the worker is through and the queue
    is empty is decided by the last event of the worker. *)
Lemma sys_last_event (P : App → Prop) a evs final s :
  (∀ a, P (handle_event final a)) →
  (∀ a ms, P a → P (after ms a)) →
  (∀ a q, P a → P (set_events q a)) →
  last evs = Some final →
  rtc sys_step (mkSys a evs) s → quiescent s → P (app s).
Proof.
  intros Hfinal Hafter Hset Hlast Hsteps.
  assert (match last (_events (app s) ++ to_put s) with
          | Some ev => ev = final
          | None => P (app s)
          end) as Hinv.
  { revert s Hsteps. apply (rtc_ind_r _ (mkSys a evs)).
    - cbn [app to_put]. rewrite last_app, Hlast. done.
    - intros s2 s3 _ Hstep IH.
      destruct Hstep as [a1 ev rest|a1 rest]; cbn [app to_put _events set_events] in *.
      + rewrite <- app_assoc. change ([ev] ++ rest) with (ev :: rest).
        rewrite last_app_cons in *.
        destruct (last (ev :: rest)) eqn:Hl; [done|by apply last_None in Hl].
      + rewrite poll_queue_events, app_nil_l.
        rewrite last_app in IH.
        destruct (last rest) as [ev|] eqn:Hrest; [done|].
        destruct (last (_events a1)) as [ev|] eqn:Hq.
        * subst ev. apply last_Some in Hq as [q Hq].
          destruct (poll_queue_last a1 q final Hq) as [a' ->]. by apply Hafter.
        * apply last_None in Hq. unfold _poll_queue. rewrite Hq. cbn [foldl].
          by apply Hafter, Hset. }
  intros [Hput Hq]. by rewrite Hput, Hq in Hinv.
Qed.

Lemma handle_done payload a :
  pb_value (handle_event (py "done", payload) a) = 100%Z ∧
  _downloading (handle_event (py "done", payload) a) = false.
Proof. done. Qed.

Lemma handle_error payload a :
  _downloading (handle_event (py "error", payload) a) = false.
Proof. done. Qed.

Lemma sys_quiescent_reachable a evs :
  ∃ s, rtc sys_step (mkSys a evs) s ∧ quiescent s.
Proof.
  exists (mkSys (_poll_queue (set_events (_events a ++ evs) a)) []). split.
  - eapply rtc_r; [apply sys_put_all|apply step_poll].
  - split; [done|apply poll_queue_events].
Qed.

(** ** The claims on [Downloader], [worker] and [App] *)

Section Claims.
Context {E : Env}.


(** C2: with metadata of the documented shape, the path is (a) the
    [filepath] of the first requested download when that list is there
    and not empty and the field is there and not empty, else (b) the
    top-level [_filename] when there and not empty, else (c) what
    [prepare_filename] answers for the metadata. *)
Theorem download_resolve_priority opts d :
  wf_info d →
  download_resolve opts (VDict d) =
    match first_filepath d with
    | Some s => Ok s
    | None =>
      match top_filename d with
      | Some s => Ok s
      | None => prepare_filename opts (VDict d)
      end
    end.
Proof.
  intros [Hf Hr]. unfold download_resolve, first_filepath, top_filename.
  unfold str_or_missing in *.
  assert (∀ v, PyVal.truthy (VStr v) = negb (bool_decide (v = []))) as Htr by done.
  destruct (d !! "requested_downloads") as [rd|] eqn:Hrd.
  - unfold PyVal.get. rewrite Hrd. cbn [default from_option id].
    destruct rd as [| | | |?|[|[| | | | | |e] ?]|]; try done;
      cbn [PyVal.truthy PyVal.item0 PyVal.get_method mbind result_bind];
      unfold PyVal.get;
      try (destruct (e !! "filepath") as [[| | | |[|??]| |]|]; try done);
      destruct (d !! "_filename") as [[| | | |[|??]| |]|]; try done.
  - unfold PyVal.get. rewrite Hrd. cbn [default from_option id PyVal.truthy mbind result_bind].
    destruct (d !! "_filename") as [[| | | |[|??]| |]|]; try done.
Qed.

(** C7: [_start_download] while a download runs shows the notice and
    does nothing else: no thread is started, nothing is put in the queue,
    the text, the progress bar and the file system stay as they are. *)
Theorem start_download_busy a w :
  _downloading a = true →
  ∃ a', _start_download a w = Ok (a', w) ∧
    dialogs a' = dialogs a ++
      [showinfo (py "Идёт загрузка")
                (py "Подождите, текущая загрузка ещё не закончилась.")] ∧
    threads a' = threads a ∧ _events a' = _events a ∧
    txt a' = txt a ∧ pb_value a' = pb_value a ∧ title a' = title a ∧
    _downloading a' = true ∧ after_calls a' = after_calls a.
Proof.
  intros Hb. unfold _start_download. rewrite Hb. eexists. split; [done|].
  cbn [show dialogs threads _events txt pb_value title _downloading after_calls].
  by rewrite Hb.
Qed.

(** C8: when [download] returns, the worker puts exactly one done event,
    its last, carrying the path returned, and once the loop has handled
    all the worker has put the progress bar reads 100 and the flag is
    down; when [download] raises, the worker puts exactly one error
    event, its last, carrying the message of the exception, and once
    handled the flag is down. Either way the worker itself returns, and
    the loop can always get through. *)
Theorem worker_end_to_end req w a :
  (∀ path, outcome (download req w) = Ok path →
     let evs := emitted (worker req w) in
     outcome (worker req w) = Ok tt ∧
     filter terminal evs = [(py "done", Pathlib.to_str path)] ∧
     last evs = Some (py "done", Pathlib.to_str path) ∧
     (∀ s, rtc sys_step (mkSys a evs) s → quiescent s →
        pb_value (app s) = 100%Z ∧ _downloading (app s) = false) ∧
     (∃ s, rtc sys_step (mkSys a evs) s ∧ quiescent s)) ∧
  (∀ e, outcome (download req w) = Raise e →
     let evs := emitted (worker req w) in
     outcome (worker req w) = Ok tt ∧
     filter terminal evs = [(py "error", exn_msg e)] ∧
     last evs = Some (py "error", exn_msg e) ∧
     (∀ s, rtc sys_step (mkSys a evs) s → quiescent s →
        _downloading (app s) = false) ∧
     (∃ s, rtc sys_step (mkSys a evs) s ∧ quiescent s)).
Proof.
  split.
  - intros path Ho evs. subst evs. rewrite (worker_done req w path Ho). cbn [emitted outcome].
    split; [done|]. split.
    { rewrite filter_app, filter_terminal_download.
      rewrite filter_cons_True by (by left). done. }
    split; [by rewrite last_snoc|]. split; [|apply sys_quiescent_reachable].
    intros s Hs Hq.
    apply (sys_last_event (λ a, pb_value a = 100%Z ∧ _downloading a = false)
             a (emitted (download req w) ++ [(py "done", Pathlib.to_str path)])
             (py "done", Pathlib.to_str path) s);
      [intros; apply handle_done|by intros|by intros|apply last_snoc|done|done].
  - intros e Ho evs. subst evs. rewrite (worker_error req w e Ho). cbn [emitted outcome].
    split; [done|]. split.
    { rewrite filter_app, filter_terminal_download.
      rewrite filter_cons_True by (by right). done. }
    split; [by rewrite last_snoc|]. split; [|apply sys_quiescent_reachable].
    intros s Hs Hq.
    apply (sys_last_event (λ a, _downloading a = false)
             a (emitted (download req w) ++ [(py "error", exn_msg e)])
             (py "error", exn_msg e) s);
      [intros; apply handle_error|by intros|by intros|apply last_snoc|done|done].
Qed.

End Claims.


Example download_reconcile_mkv :
  let E := scripted [] (Ok VNone) [] in
  download_reconcile (py "a/b.mkv") [Pathlib.of_str (py "a/b.mp4")] = Pathlib.of_str (py "a/b.mp4") ∧
  download_reconcile (py "a/b.mkv") [] = Pathlib.of_str (py "a/b.mkv").
Proof. by vm_compute. Qed.

Lemma download_resolve_priority_witness :
  @download_resolve (scripted [] (Ok VNone) []) demo_opts (VDict demo_info)
    = Ok (py "downloads/clip.mkv").
Proof.
  refine (eq_trans (@download_resolve_priority (scripted [] (Ok VNone) []) demo_opts demo_info _) _).
  - by vm_compute.
  - by vm_compute.
Defined.

Lemma start_download_busy_witness :
  ∃ a', @_start_download (scripted [] (Ok VNone) []) busy_app [] = Ok (a', []) ∧
        threads a' = [] ∧ pb_value a' = 40%Z.
Proof.
  destruct (@start_download_busy (scripted [] (Ok VNone) []) busy_app [] eq_refl)
    as (a' & H1 & _ & H2 & _ & _ & H3 & _).
  exists a'. split; [exact H1|]. split; [exact H2|exact H3].
Defined.

Lemma worker_end_to_end_witness :
  filter terminal (emitted (@worker demo_env demo_req [])) = [(py "done", py "downloads/clip.mp4")].
Proof.
  refine (proj1 (proj2 (proj1 (@worker_end_to_end demo_env demo_req [] App_init)
                          (Pathlib.of_str (py "downloads/clip.mp4")) _))).
  by vm_compute.
Defined.

(** ** Checks of the run-time model *)

Example py_utf8 :
  py "Подготовка…" = [1055; 1086; 1076; 1075; 1086; 1090; 1086; 1074; 1082; 1072; 8230]%N.
Proof. reflexivity. Qed.

Example of_int_examples :
  PyStr.of_int 1023 = py "1023" ∧ PyStr.of_int (-5) = py "-5" ∧ PyStr.of_int 0 = py "0".
Proof. by vm_compute. Qed.

Example float_of_str_examples :
  PyFloat.parse (py "0.1") = Some (S754_finite false 7205759403792794 (-56)) ∧
  PyFloat.parse (py "1e-320") = Some (S754_finite false 2024 (-1074)) ∧
  PyFloat.parse (py "1.8e308") = Some (S754_infinity false) ∧
  PyFloat.parse (py " -Infinity ") = Some (S754_infinity true) ∧
  PyFloat.parse (py "1_0.5") = Some (S754_finite false 5910974510923776 (-49)) ∧
  PyFloat.parse (py "abc") = None ∧ PyFloat.parse (py "1e") = None ∧
  PyFloat.parse (py ".") = None ∧ PyFloat.parse (py "1_") = None ∧
  PyFloat.parse (py "") = None.
Proof. by vm_compute. Qed.

Example float_rounds_before_int :
  percent_of (py "99.99999999999999999%") = Ok 100%Z ∧
  percent_of (py "99.9%") = Ok 99%Z ∧ percent_of (py "-0.5%") = Ok 0%Z.
Proof. by vm_compute. Qed.

Example int_of_str_examples :
  int_of_str (py " -1_2 ") = Ok (-12)%Z ∧ int_of_str (py "+7") = Ok 7%Z.
Proof. by vm_compute. Qed.

Example human_size_examples :
  human_size 1536 = Ok (py "2 KB") ∧ human_size 2560 = Ok (py "2 KB") ∧
  human_size (1024 ^ 7) = Ok (py "1048576 PB") ∧ human_size (-5) = Ok (py "-5 B") ∧
  human_size (2 ^ 53 + 1) = Ok (py "8 PB") ∧
  human_size (2 ^ 1024) = Raise (Exn OverflowError (py "int too large to convert to float")).
Proof. by vm_compute. Qed.

Example pathlib_examples :
  Pathlib.to_str (Pathlib.of_str (py "a//b/./c.mp4/")) = py "a/b/c.mp4" ∧
  Pathlib.to_str (Pathlib.of_str (py "")) = py "." ∧
  Pathlib.to_str (Pathlib.of_str (py "//a")) = py "//a" ∧
  Pathlib.to_str (Pathlib.of_str (py "///a")) = py "/a" ∧
  Pathlib.to_str (Pathlib.joinpath (Pathlib.of_str (py "downloads")) (py "%(title)s.%(ext)s"))
    = py "downloads/%(title)s.%(ext)s".
Proof. by vm_compute. Qed.

(** * Further properties of the code *)

(** ** [sanitize_filename] and [force_mp4_name] *)

(** X1: Sanitizing twice is sanitizing once. *)
Theorem sanitize_filename_idempotent name :
  sanitize_filename (sanitize_filename name) = sanitize_filename name.
Proof.
  pose proof (sanitize_filename_nonempty name) as Hne.
  destruct (sanitize_filename name) as [|a r] eqn:Ht; [done|].
  destruct (last (a :: r)) as [b|] eqn:Hb; [|by apply last_None in Hb].
  rewrite <- Ht in *.
  apply (sanitize_filename_fixed _ a b).
  - apply sanitize_filename_clean.
  - by rewrite Ht.
  - apply (sanitize_filename_head name). by rewrite Ht.
  - done.
  - by apply (sanitize_filename_last name).
Qed.

(** X2: A name that holds no forbidden character and has no white space at
    either end is returned as it is. *)
Theorem sanitize_filename_keeps_clean_names name a b :
  Forall (λ c, c ∉ forbidden_chars) name →
  head name = Some a → PyStr.isspace a = false →
  last name = Some b → PyStr.isspace b = false →
  sanitize_filename name = name.
Proof.
  intros Hc. apply sanitize_filename_fixed.
  eapply Forall_impl; [done|]. intros c Hn.
  destruct (is_forbidden c) eqn:Hf; [|done]. by apply is_forbidden_true in Hf.
Qed.

Lemma sanitize_filename_keeps_clean_names_witness :
  sanitize_filename (py "My clip (1).mkv") = py "My clip (1).mkv".
Proof.
  apply (sanitize_filename_keeps_clean_names _ 77%N 118%N); try done.
  apply Forall_forall. intros c Hc Hf.
  apply is_forbidden_true in Hf.
  assert (forallb (λ c, negb (is_forbidden c)) (py "My clip (1).mkv") = true) as Hall
    by (by vm_compute).
  rewrite forallb_forall in Hall. apply list_elem_of_In, Hall in Hc.
  by rewrite Hf in Hc.
Defined.

Lemma sub_runs_length p repl b s :
  (length repl <= 1)%nat → (length (PyStr.sub_runs p repl b s) <= length s)%nat.
Proof.
  intros Hr. revert b. induction s as [|c r IH]; intros b; simpl; [done|].
  destruct (p c).
  - rewrite length_app. specialize (IH true). destruct b; simpl; lia.
  - simpl. specialize (IH false). lia.
Qed.

Lemma strip_by_length p s : (length (PyStr.strip_by p s) <= length s)%nat.
Proof.
  unfold PyStr.strip_by.
  destruct (lstrip_by_suffix p s) as [k Hk].
  destruct (rstrip_by_prefix p (PyStr.lstrip_by p s)) as [k' Hk'].
  apply (f_equal length) in Hk, Hk'. rewrite length_app in Hk, Hk'. lia.
Qed.

(** X3: The result is never longer than the name, unless it is the fallback
    "video". *)
Theorem sanitize_filename_length name :
  sanitize_filename name = py "video" ∨
  (length (sanitize_filename name) <= length name)%nat.
Proof.
  rewrite sanitize_filename_unfold. cbv zeta. case_decide; [by left|right].
  etrans; [apply strip_by_length|]. by apply sub_runs_length.
Qed.

Lemma splitext_stem_nonempty t :
  OsPath.sep ∉ t → t ≠ [] → (OsPath.splitext t).1 ≠ [].
Proof.
  intros Hs Hne. destruct (decide (OsPath.extsep ∈ t)) as [Hd|Hd].
  - apply list_elem_of_split_r in Hd as (a & b & -> & Hb).
    rewrite elem_of_app, elem_of_cons in Hs.
    rewrite splitext_last_dot by naive_solver.
    destruct (has_non_dot a) eqn:Ha; [|done]. simpl. by intros ->.
  - by rewrite splitext_no_dot.
Qed.

Lemma force_mp4_name_ends_mp4 base :
  ∃ stem, force_mp4_name base = stem ++ py ".mp4" ∧ stem ≠ [] ∧
    Forall (λ c, c ∉ forbidden_chars) (force_mp4_name base) ∧
    (∀ c, head (force_mp4_name base) = Some c → PyStr.isspace c = false).
Proof.
  exists (OsPath.splitext (sanitize_filename base)).1.
  pose proof (stem_of_sanitized base) as [Hc Hh]. cbv zeta in Hc, Hh.
  pose proof (splitext_stem_nonempty _
                (clean_no_sep _ (sanitize_filename_clean base))
                (sanitize_filename_nonempty base)) as Hne.
  rewrite force_mp4_name_unfold. split; [done|]. split; [done|].
  destruct (Hh Hne) as (c & Hhc & Hsc). split.
  - apply Forall_app. split.
    + eapply Forall_impl; [exact Hc|]. intros x Hx Hin.
      apply is_forbidden_true in Hin. congruence.
    + apply Forall_forall. intros x Hx Hin. apply is_forbidden_true in Hin.
      assert (forallb (λ c, negb (is_forbidden c)) (py ".mp4") = true) as Hall by done.
      rewrite forallb_forall in Hall. apply list_elem_of_In, Hall in Hx.
      by rewrite Hin in Hx.
  - intros c'. destruct (OsPath.splitext _).1 as [|x r]; [done|].
    cbn [head app]. injection Hhc as ->. by intros [= <-].
Qed.

(** X4: What [force_mp4_name] returns always ends in ".mp4", after a stem
    that is not empty; it holds no forbidden character (so no path
    separator) and does not start with white space. *)
Theorem force_mp4_name_shape base :
  ∃ stem, force_mp4_name base = stem ++ py ".mp4" ∧ stem ≠ [] ∧
    Forall (λ c, c ∉ forbidden_chars) (force_mp4_name base) ∧
    (∀ c, head (force_mp4_name base) = Some c → PyStr.isspace c = false).
Proof. apply force_mp4_name_ends_mp4. Qed.

(** X5: The extension of a clean name is replaced: [stem.ext] becomes
    [stem.mp4] when the stem holds something else than dots, [ext] has no
    dot, and the name has no forbidden character and no white space at
    either end. *)
Theorem force_mp4_name_replaces_extension stem ext a b :
  clean stem → clean ext →
  head stem = Some a → PyStr.isspace a = false →
  last (OsPath.extsep :: ext) = Some b → PyStr.isspace b = false →
  ¬ all_dots stem → OsPath.extsep ∉ ext →
  force_mp4_name (stem ++ OsPath.extsep :: ext) = stem ++ py ".mp4".
Proof.
  intros Hcs Hce Ha Hsa Hb Hsb Hnd Hdot.
  rewrite force_mp4_name_unfold.
  rewrite (sanitize_filename_fixed _ a b); try done.
  - rewrite splitext_last_dot; [|by apply clean_no_sep..|done].
    by apply has_non_dot_true in Hnd as ->.
  - apply Forall_app. split; [done|]. by constructor.
  - by destruct stem.
  - by rewrite last_app_cons.
Qed.

Lemma clean_check s : forallb (λ c, negb (is_forbidden c)) s = true → clean s.
Proof.
  rewrite forallb_forall. intros H. apply Forall_forall.
  intros c Hc%list_elem_of_In. apply H in Hc. by destruct (is_forbidden c).
Qed.

Lemma not_elem_check (c : N) s : existsb (N.eqb c) s = false → c ∉ s.
Proof.
  intros H Hin. apply not_true_iff_false in H. apply H, existsb_exists.
  exists c. split; [by apply list_elem_of_In|apply N.eqb_refl].
Qed.

Lemma force_mp4_name_replaces_extension_witness :
  force_mp4_name (py "holiday 2024.final" ++ OsPath.extsep :: py "webm")
    = py "holiday 2024.final" ++ py ".mp4".
Proof.
  apply (force_mp4_name_replaces_extension (py "holiday 2024.final") (py "webm") 104%N 109%N).
  - apply clean_check. by vm_compute.
  - apply clean_check. by vm_compute.
  - by vm_compute.
  - by vm_compute.
  - by vm_compute.
  - by vm_compute.
  - apply has_non_dot_true. by vm_compute.
  - apply not_elem_check. by vm_compute.
Defined.

(** ** [human_size] *)

Lemma round_half_even_bounds m e :
  (0 <= m)%Z → (e <= 0)%Z →
  (m / 2 ^ (- e) <= PyFloat.round_half_even m e <= m / 2 ^ (- e) + 1)%Z.
Proof.
  intros Hm He. unfold PyFloat.round_half_even.
  destruct (Z.leb_spec 0 e) as [H|H].
  - assert (e = 0)%Z as -> by lia. cbn. rewrite Z.div_1_r. lia.
  - destruct (2 * (m mod 2 ^ (- e)) ?= 2 ^ (- e))%Z; [destruct (Z.even _)|..]; lia.
Qed.

(** X6: The number printed is the count itself in B and lies between 1 and
    1024 in the larger units. *)
Theorem human_size_number_range n :
  (0 <= n < 2 ^ 53)%Z →
  ∃ v, human_size n = Ok (PyStr.of_int v ++ py " " ++ nth (unit_index n) all_units []) ∧
       (0 <= v <= 1024)%Z ∧
       (unit_index n = 0%nat → v = n) ∧
       (unit_index n ≠ 0%nat → 1 <= v)%Z.
Proof.
  intros Hn. exists (PyFloat.round_half_even n (- 10 * Z.of_nat (unit_index n))).
  split; [by apply human_size_exact|].
  destruct (unit_index_smallest n) as [Hlt Hge].
  set (k := unit_index n) in *.
  assert (k <= 5)%nat as Hk5.
  { unfold k, unit_index. cbn [smallest_unit]. repeat case_match; lia. }
  clearbody k.
  assert ((2 ^ (- (- 10 * Z.of_nat k)))%Z = (1024 ^ Z.of_nat k)%Z) as Hpow.
  { replace (- (- 10 * Z.of_nat k))%Z with (10 * Z.of_nat k)%Z by lia.
    rewrite Z.pow_mul_r by lia. done. }
  assert (0 < 1024 ^ Z.of_nat k)%Z as Hpos by (apply Z.pow_pos_nonneg; lia).
  pose proof (round_half_even_bounds n (- 10 * Z.of_nat k) ltac:(lia) ltac:(lia)) as Hb.
  rewrite Hpow in Hb.
  assert (0 <= n / 1024 ^ Z.of_nat k)%Z as Hq0 by (apply Z.div_pos; lia).
  assert (n / 1024 ^ Z.of_nat k <= 1023)%Z as Hq1.
  { destruct (decide (k = 5%nat)) as [->|Hk].
    - apply Z.lt_succ_r, Z.div_lt_upper_bound; [lia|].
      change (1024 ^ Z.of_nat 5 * Z.succ 1023)%Z with (2 ^ 60)%Z.
      clear Hlt Hge Hb Hq0 Hpow Hpos.
      assert (2 ^ 53 < 2 ^ 60)%Z by (by apply Z.pow_lt_mono_r). lia.
    - apply Z.lt_succ_r, Z.div_lt_upper_bound; [lia|]. specialize (Hlt ltac:(lia)).
      change (Z.succ 1023) with 1024%Z. lia. }
  split; [lia|]. split.
  - intros Hk0. rewrite Hk0. change (-10 * Z.of_nat 0)%Z with 0%Z.
    unfold PyFloat.round_half_even. change (0 <=? 0)%Z with true. cbv iota.
    rewrite Z.pow_0_r. lia.
  - intros Hk0. assert (1 <= n / 1024 ^ Z.of_nat k)%Z; [|lia].
    apply Z.div_le_lower_bound; [lia|].
    specialize (Hge (k - 1)%nat ltac:(lia)).
    replace (Z.of_nat k) with (Z.succ (Z.of_nat (k - 1))) by lia.
    rewrite Z.pow_succ_r by lia. lia.
Qed.

Lemma human_size_number_range_witness :
  ∃ v, human_size 1048575 = Ok (PyStr.of_int v ++ py " " ++ nth (unit_index 1048575) all_units [])
       ∧ (0 <= v <= 1024)%Z.
Proof.
  destruct (human_size_number_range 1048575 ltac:(lia)) as (v & H1 & H2 & _).
  exists v. split; [exact H1|exact H2].
Defined.

Lemma round_int_exact_neg p :
  let d := Z.pos (digits2_pos p) in
  (d <= 53)%Z →
  ∃ m, PyFloat.round_int (Z.neg p) = S754_finite true m (d - 53)
       ∧ Z.pos (digits2_pos m) = 53%Z
       ∧ Z.pos m = (Z.pos p * 2 ^ (53 - d))%Z.
Proof.
  intros d Hd. unfold PyFloat.round_int, binary_normalize, binary_round.
  unfold PyFloat.prec, PyFloat.emax. fold d. rewrite fexp64.
  replace (Z.max (d + 0 - 53) (-1074))%Z with (d - 53)%Z by lia.
  unfold shl_align. rewrite Z.sub_0_r.
  destruct (d - 53)%Z as [|k|k] eqn:Hk; [| lia |].
  - exists p. rewrite binary_round_aux_canonical by lia.
    split; [done|]. split; [lia|]. replace (53 - d)%Z with 0%Z by lia. lia.
  - exists (Pos.iter xO p k).
    assert (Z.pos (digits2_pos (Pos.iter xO p k)) = 53%Z) as Hdk.
    { rewrite digits2_pos_iter_xO. lia. }
    rewrite binary_round_aux_canonical by lia.
    split; [done|]. split; [done|]. rewrite pos_iter_xO. f_equal. f_equal. lia.
Qed.

(** X7: A negative count is printed in B whatever its size, with its sign. *)
Theorem human_size_negative n :
  (- 2 ^ 53 < n < 0)%Z → human_size n = Ok (PyStr.of_int n ++ py " B").
Proof.
  intros Hn. destruct n as [|p|p]; [lia|lia|].
  set (d := Z.pos (digits2_pos p)).
  assert (d <= 53)%Z as Hd by (apply digits_le_iff; lia).
  destruct (round_int_exact_neg p Hd) as (m & Hr & Hm53 & Hm). fold d in Hr, Hm.
  unfold human_size, units. rewrite human_size_loop_cons. cbn [num_ltb].
  rewrite int_ltb_step.
  assert ((Z.neg p <? 1024)%Z = true) as -> by (apply Z.ltb_lt; lia).
  unfold num_format. cbn [num_float]. unfold PyFloat.of_int. rewrite Hr.
  cbn [mbind result_bind PyFloat.format_f0].
  replace (d - 53)%Z with (0 - (53 - d))%Z by lia.
  rewrite Hm, round_half_even_scale by lia.
  unfold PyFloat.round_half_even. cbn [Z.leb Z.compare]. rewrite Z.pow_0_r, Z.mul_1_r.
  done.
Qed.

Lemma human_size_negative_witness : human_size (-1500) = Ok (py "-1500 B").
Proof.
  refine (eq_trans (human_size_negative (-1500) _) _).
  - lia.
  - by vm_compute.
Defined.

(** ** [Downloader._hook] *)

(** X8: A tick puts at most one progress event, then at most one log event,
    and nothing of any other kind. *)
Theorem hook_event_shape d :
  ∃ ps ls, emitted (_hook d) = ps ++ ls ∧
    (ps = [] ∨ ∃ n, (0 <= n <= 100)%Z ∧ ps = [(py "progress", PyStr.of_int n)]) ∧
    (ls = [] ∨ ∃ msg, ls = [(py "log", msg)]).
Proof.
  unfold _hook. destruct (PyVal.eq_str _ (py "downloading")).
  - destruct (PyVal.strip _) as [v|e].
    + rewrite bind_lift_ok.
      destruct (hook_percent_eff v) as [He Ho].
      destruct (bind_ok _ (λ _, _hook_sizes d) _ Ho) as [-> _]. rewrite He.
      exists (progress_events v), (emitted (_hook_sizes d)). split; [done|]. split.
      * unfold progress_events. destruct (percent_of v) as [n|]; [right|by left].
        exists (Z.max 0 (Z.min 100 n)). split; [lia|done].
      * destruct (hook_sizes_cases d) as [[msg ->]|[e ->]]; [right; by exists msg|by left].
    + rewrite bind_lift_raise. exists [], []. split; [done|]. split; by left.
  - destruct (PyVal.eq_str _ (py "finished")).
    + rewrite hook_finished_eff.
      exists [(py "progress", py "100")], [(py "log", py "Постобработка (mp4)…")].
      split; [done|]. split; right; [|by eexists].
      exists 100%Z. split; [lia|done].
    + exists [], []. split; [done|]. split; by left.
Qed.

(** X9: A percent field that is neither a string nor false in Python's sense
    makes the hook raise at [.strip()], before it has put anything. *)
Theorem hook_percent_not_a_string d v :
  downloading d →
  d !! "_percent_str" = Some v → PyVal.truthy v = true → (∀ s, v ≠ VStr s) →
  _hook d = mkEff [] (Raise (PyVal.no_attribute v "strip")).
Proof.
  intros Hd Hv Ht Hs. unfold _hook. rewrite Hd.
  cbn [PyVal.eq_str]. rewrite bool_decide_eq_true_2 by done.
  unfold PyVal.get at 1. rewrite Hv. cbn [default from_option id].
  unfold PyVal.or. rewrite Ht.
  destruct v; try done. by destruct (Hs s).
Qed.

Lemma hook_percent_not_a_string_witness :
  _hook (tick [("_percent_str", VInt 50)])
    = mkEff [] (Raise (Exn AttributeError (py "'int' object has no attribute 'strip'"))).
Proof.
  refine (eq_trans (hook_percent_not_a_string (tick [("_percent_str", VInt 50)]) (VInt 50) _ _ _ _) _).
  - by vm_compute.
  - by vm_compute.
  - by vm_compute.
  - by intros s.
  - by vm_compute.
Defined.

Lemma eq_str_false v s : v ≠ VStr s → PyVal.eq_str v s = false.
Proof.
  intros H. destruct v; try done. cbn. apply bool_decide_eq_false. congruence.
Qed.

(** X10: A tick with status "finished" puts progress 100 and the
    post-processing line; a tick with any other status, or with none, puts
    nothing; the hook returns in both cases, whatever else the tick
    holds. *)
Theorem hook_other_status d :
  (PyVal.get d "status" = VStr (py "finished") →
     _hook d = mkEff [(py "progress", py "100"); (py "log", py "Постобработка (mp4)…")]
                     (Ok tt)) ∧
  (PyVal.get d "status" ≠ VStr (py "downloading") →
   PyVal.get d "status" ≠ VStr (py "finished") →
     _hook d = mkEff [] (Ok tt)).
Proof.
  split.
  - intros Hs. unfold _hook. rewrite Hs. cbn [PyVal.eq_str].
    rewrite bool_decide_eq_false_2 by (by vm_compute).
    rewrite bool_decide_eq_true_2 by done. apply hook_finished_eff.
  - intros H1 H2. unfold _hook. by rewrite !eq_str_false.
Qed.

Lemma hook_other_status_witness :
  _hook (list_to_map [("status", VStr (py "error")); ("_percent_str", VInt 3)]) = mkEff [] (Ok tt)
  ∧ _hook ∅ = mkEff [] (Ok tt).
Proof.
  split.
  - apply (proj2 (hook_other_status _)); by vm_compute.
  - apply (proj2 (hook_other_status _)); by vm_compute.
Defined.

(** ** The hook and the loop together *)

Lemma int_of_str_of_int n :
  (0 <= n <= 100)%Z → int_of_str (PyStr.of_int n) = Ok n.
Proof.
  intros Hn.
  assert (forallb (λ k, match int_of_str (PyStr.of_int (Z.of_nat k)) with
                        | Ok m => (m =? Z.of_nat k)%Z
                        | Raise _ => false
                        end) (seq 0 101) = true) as Hall by (by vm_compute).
  rewrite forallb_forall in Hall. specialize (Hall (Z.to_nat n)).
  rewrite Z2Nat.id in Hall by lia.
  destruct (int_of_str (PyStr.of_int n)) as [m|e].
  - f_equal. apply Z.eqb_eq, Hall, in_seq. lia.
  - exfalso. assert (false = true); [|done]. apply Hall, in_seq. lia.
Qed.

Lemma handle_progress payload a :
  handle_event (py "progress", payload) a =
    match int_of_str payload with
    | Ok n => set_pb (Z.max 0 (Z.min 100 n)) a
    | Raise _ => a
    end.
Proof. done. Qed.

(** X11: Every progress event of the hook is read back by the loop: the bar
    is set to the number the hook computed, and nothing else changes. *)
Theorem hook_progress_reaches_bar d ev a :
  ev ∈ emitted (_hook d) → ev.1 = py "progress" →
  ∃ n, (0 <= n <= 100)%Z ∧ ev.2 = PyStr.of_int n ∧ handle_event ev a = set_pb n a.
Proof.
  intros Hin Hk. destruct (hook_events d ev Hin) as [[_ (n & Hn & Hp)]|Hl].
  - exists n. split; [done|]. split; [done|].
    destruct ev as [kind payload]. cbn [fst snd] in *. subst kind payload.
    rewrite handle_progress, int_of_str_of_int by done. f_equal. lia.
  - rewrite Hk in Hl. vm_compute in Hl. discriminate.
Qed.

Lemma hook_progress_reaches_bar_witness :
  ∃ n, (py "progress", py "42") = (py "progress", PyStr.of_int n)
       ∧ handle_event (py "progress", py "42") App_init = set_pb n App_init.
Proof.
  destruct (hook_progress_reaches_bar
              (tick [("_percent_str", VStr (py "42.5%"))]) (py "progress", py "42") App_init)
    as (n & _ & H1 & H2).
  - apply list_elem_of_In. vm_compute. by left.
  - done.
  - exists n. cbn [snd] in H1. split; [by rewrite H1|exact H2].
Defined.

(** ** [Downloader.download] and [worker] *)

Section Download_extras.
Context {E : Env}.

(** X12: When the output directory cannot be made, [download] raises before
    it has put anything, not even the status line; the worker reports
    the message as its only event. *)
Theorem download_mkdir_fails req w e :
  mkdir (outdir req) w = Raise e →
  download req w = mkEff [] (Raise e) ∧
  worker req w = mkEff [(py "error", exn_msg e)] (Ok tt).
Proof.
  intros Hm.
  assert (download req w = mkEff [] (Raise e)) as Hd.
  { unfold download. rewrite Hm. apply bind_lift_raise. }
  split; [done|]. rewrite (worker_error req w e) by (by rewrite Hd). by rewrite Hd.
Qed.

(** With the directory made and the hook returning on every tick,
    [download] has put the status line and then what the hook put, tick
    after tick, and ends as the engine's answer decides. *)
Lemma download_after_hooks req w w1 :
  mkdir (outdir req) w = Ok w1 →
  let run := extract_info (ydl_opts req) (url req) w1 in
  outcome (run_hooks _hook (ticks run)) = Ok tt →
  emitted (download req w) =
    (py "status", py "Подготовка…") :: emitted (run_hooks _hook (ticks run)) ∧
  outcome (download req w) =
    (info ← returned run;
     match info with
     | VNone => Raise (Exn RuntimeError (py "yt-dlp не вернул метаданные."))
     | _ => path ← download_resolve (ydl_opts req) info;
            Ok (download_reconcile path (world_after run))
     end).
Proof.
  intros Hm run Hh. unfold download. rewrite Hm, bind_lift_ok. fold run.
  set (k := λ _ : (), _).
  assert (outcome (put (py "status", py "Подготовка…")) = Ok tt) as Hput by done.
  destruct (bind_ok _ k _ Hput) as [-> ->]. unfold k. clear k Hput.
  set (k := λ _ : (), _).
  destruct (bind_ok _ k _ Hh) as [He Ho]. rewrite He, Ho. unfold k. clear k He Ho.
  destruct (returned run) as [info|e].
  2:{ rewrite bind_lift_raise. cbn [emitted outcome]. by rewrite app_nil_r. }
  rewrite bind_lift_ok.
  assert (∀ r : result str,
    emitted (path ← lift r; mret (download_reconcile path (world_after run))) = [] ∧
    outcome (path ← lift r; mret (download_reconcile path (world_after run)))
      = (path ← r; Ok (download_reconcile path (world_after run)))) as Hres.
  { by intros [p|e]. }
  destruct info;
    rewrite ?(proj1 (Hres _)), ?(proj2 (Hres _));
    cbn [emitted outcome lift]; by rewrite app_nil_r.
Qed.

(** X13: The engine answering [None] is an error of [download]: a
    [RuntimeError] with the message of line 116, which the worker
    reports. *)
Theorem download_no_metadata req w w1 :
  mkdir (outdir req) w = Ok w1 →
  let run := extract_info (ydl_opts req) (url req) w1 in
  outcome (run_hooks _hook (ticks run)) = Ok tt →
  returned run = Ok VNone →
  outcome (download req w) = Raise (Exn RuntimeError (py "yt-dlp не вернул метаданные.")) ∧
  last (emitted (worker req w)) = Some (py "error", py "yt-dlp не вернул метаданные.").
Proof.
  intros Hm run Hh Hr. destruct (download_after_hooks req w w1 Hm Hh) as [_ Ho].
  fold run in Ho. rewrite Hr in Ho. split; [done|].
  rewrite (worker_error req w _ Ho). cbn [emitted]. by rewrite last_snoc.
Qed.

(** X14: An exception of the engine passes through [download] as it is,
    after the events of the ticks; the worker reports its message. *)
Theorem download_engine_raises req w w1 e :
  mkdir (outdir req) w = Ok w1 →
  let run := extract_info (ydl_opts req) (url req) w1 in
  outcome (run_hooks _hook (ticks run)) = Ok tt →
  returned run = Raise e →
  outcome (download req w) = Raise e ∧
  emitted (worker req w) =
    (py "status", py "Подготовка…") :: emitted (run_hooks _hook (ticks run))
      ++ [(py "error", exn_msg e)].
Proof.
  intros Hm run Hh Hr. destruct (download_after_hooks req w w1 Hm Hh) as [He Ho].
  fold run in Ho, He. rewrite Hr in Ho. split; [done|].
  rewrite (worker_error req w _ Ho). cbn [emitted]. by rewrite He.
Qed.


Lemma worker_run_shape req w :
  outcome (worker req w) = Ok tt ∧
  ∃ pre final, emitted (worker req w) = pre ++ [final] ∧ terminal final ∧
    Forall (λ ev, ¬ terminal ev) pre.
Proof.
  assert (Forall (λ ev, ¬ terminal ev) (emitted (download req w))) as Hpre.
  { apply Forall_forall. intros ev. apply download_not_terminal. }
  destruct (outcome (download req w)) as [path|e] eqn:Ho.
  - rewrite (worker_done req w path Ho). split; [done|].
    exists (emitted (download req w)), (py "done", Pathlib.to_str path).
    split; [done|]. split; [by left|done].
  - rewrite (worker_error req w e Ho). split; [done|].
    exists (emitted (download req w)), (py "error", exn_msg e).
    split; [done|]. split; [by right|done].
Qed.

(** X16: Whatever happens, the worker returns, and what it has put ends with
    one done or error event and holds no other. *)
Theorem worker_always_reports req w :
  outcome (worker req w) = Ok tt ∧
  ∃ pre final, emitted (worker req w) = pre ++ [final] ∧ terminal final ∧
    Forall (λ ev, ¬ terminal ev) pre.
Proof. apply worker_run_shape. Qed.

End Download_extras.

Lemma download_mkdir_fails_witness :
  let E := {| World := unit;
              mkdir _ _ := Raise (Exn OSError (py "Permission denied"));
              path_exists _ _ := false;
              extract_info _ _ w := {| ticks := []; returned := Ok VNone; world_after := w |};
              prepare_filename opts _ := Ok (outtmpl opts) |} in
  @worker E demo_req tt = mkEff [(py "error", py "Permission denied")] (Ok tt).
Proof.
  intros E. exact (proj2 (@download_mkdir_fails E demo_req tt (Exn OSError (py "Permission denied")) eq_refl)).
Defined.

Lemma download_no_metadata_witness :
  last (emitted (@worker (scripted [] (Ok VNone) []) demo_req []))
    = Some (py "error", py "yt-dlp не вернул метаданные.").
Proof.
  exact (proj2 (@download_no_metadata (scripted [] (Ok VNone) []) demo_req []
                  [Pathlib.of_str (py "downloads")] eq_refl eq_refl eq_refl)).
Defined.

Lemma download_engine_raises_witness :
  let e := Exn DownloadError (py "ERROR: Unsupported URL") in
  let E := scripted [tick [("downloaded_bytes", VInt 10)]] (Raise e) [] in
  emitted (@worker E demo_req [])
    = [(py "status", py "Подготовка…"); (py "progress", py "0"); (py "log", py "10 B");
       (py "error", py "ERROR: Unsupported URL")].
Proof.
  intros e E.
  refine (eq_trans (proj2 (@download_engine_raises E demo_req []
                             [Pathlib.of_str (py "downloads")] e eq_refl _ eq_refl)) _).
  - by vm_compute.
  - by vm_compute.
Defined.


(** ** [App._start_download] *)

Section Start_extras.
Context {E : Env}.

(** X17: With no download running, a link that is empty or blank is refused
    with the error box; nothing is started and nothing else changes. *)
Theorem start_download_no_url a w :
  _downloading a = false → PyStr.strip (ent_url a) = [] →
  ∃ a', _start_download a w = Ok (a', w) ∧
    dialogs a' = dialogs a ++ [showerror (py "Ошибка") (py "Укажите ссылку.")] ∧
    threads a' = threads a ∧ _events a' = _events a ∧ _downloading a' = false ∧
    txt a' = txt a ∧ pb_value a' = pb_value a.
Proof.
  intros Hb Hu. unfold _start_download. rewrite Hb, Hu. eexists. split; [done|].
  cbn [show dialogs threads _events txt pb_value _downloading]. by rewrite Hb.
Qed.

(** X18: An accepted start: with no download running, a link that is not
    blank and the directory made, the bar is reset, the text cleared, the
    flag raised and exactly one thread started, for the trimmed link, the
    directory of the entry ("downloads" when blank) and the name of the
    entry forced to .mp4 (no name when blank); no box is shown and the
    queue is left alone. *)
Theorem start_download_accepted a w w1 :
  _downloading a = false → PyStr.strip (ent_url a) ≠ [] →
  let dir := Pathlib.of_str (if decide (PyStr.strip (ent_out a) = []) then py "downloads"
                             else PyStr.strip (ent_out a)) in
  mkdir dir w = Ok w1 →
  ∃ a' req, _start_download a w = Ok (a', w1) ∧
    threads a' = threads a ++ [req] ∧
    url req = PyStr.strip (ent_url a) ∧ outdir req = dir ∧
    output_name req = (if decide (PyStr.strip (ent_name a) = []) then None
                       else Some (force_mp4_name (PyStr.strip (ent_name a)))) ∧
    (∀ n, output_name req = Some n →
       ∃ stem, n = stem ++ py ".mp4" ∧ stem ≠ [] ∧ Forall (λ c, c ∉ forbidden_chars) n) ∧
    _downloading a' = true ∧ pb_value a' = 0%Z ∧ txt a' = [] ∧
    dialogs a' = dialogs a ∧ _events a' = _events a ∧ after_calls a' = after_calls a.
Proof.
  intros Hb Hu dir Hm. unfold _start_download. rewrite Hb.
  destruct (PyStr.strip (ent_url a)) as [|c u] eqn:Hurl; [done|].
  assert (match PyStr.strip (ent_out a) with [] => py "downloads" | t => t end
          = if decide (PyStr.strip (ent_out a) = []) then py "downloads"
            else PyStr.strip (ent_out a)) as -> by (by destruct (PyStr.strip (ent_out a))).
  fold dir. rewrite Hm. cbn [mbind result_bind].
  eexists _, _. split; [done|].
  cbn [start_thread set_downloading set_txt set_pb threads url outdir output_name
       _downloading pb_value txt dialogs _events after_calls].
  split; [done|]. split; [done|]. split; [done|].
  split; [by destruct (PyStr.strip (ent_name a))|].
  split; [|done].
  intros n Hn. destruct (PyStr.strip (ent_name a)) as [|x r]; [done|].
  injection Hn as <-.
  destruct (force_mp4_name_ends_mp4 (x :: r)) as (stem & H1 & H2 & H3 & _). by exists stem.
Qed.

End Start_extras.

Lemma start_download_no_url_witness :
  ∃ a', @_start_download (scripted [] (Ok VNone) []) App_init [] = Ok (a', []) ∧ threads a' = [].
Proof.
  destruct (@start_download_no_url (scripted [] (Ok VNone) []) App_init [] eq_refl eq_refl)
    as (a' & H1 & _ & H2 & _).
  exists a'. split; [exact H1|exact H2].
Defined.

Lemma start_download_accepted_witness :
  ∃ a' req, @_start_download (scripted [] (Ok VNone) []) typed_app [] = Ok (a', [Pathlib.of_str (py "downloads")])
    ∧ threads a' = [req] ∧ url req = py "https://example.org/v"
    ∧ output_name req = Some (py "my_ clip.mp4").
Proof.
  destruct (@start_download_accepted (scripted [] (Ok VNone) []) typed_app []
              [Pathlib.of_str (py "downloads")] eq_refl)
    as (a' & req & H1 & H2 & H3 & _ & H4 & _).
  - by vm_compute.
  - by vm_compute.
  - exists a', req. split; [exact H1|]. split; [exact H2|]. split.
    + rewrite H3. by vm_compute.
    + rewrite H4. by vm_compute.
Defined.

(** ** [App._poll_queue] *)

Lemma handle_event_cases ev a :
  handle_event ev a =
    if decide (ev.1 = py "status") then _set_status ev.2 a
    else if decide (ev.1 = py "progress") then
      match int_of_str ev.2 with
      | Ok n => set_pb (Z.max 0 (Z.min 100 n)) a
      | Raise _ => a
      end
    else if decide (ev.1 = py "log") then _log ev.2 a
    else if decide (ev.1 = py "done") then
      set_title (py "Fetch Media — на yt-dlp")
        (set_downloading false
           (show (showinfo (py "Готово") (py "Файл сохранён:" ++ 10%N :: ev.2))
              (_log (py "✅ Готово: " ++ ev.2) (set_pb 100 a))))
    else if decide (ev.1 = py "error") then
      set_title (py "Fetch Media — на yt-dlp")
        (set_downloading false
           (show (showerror (py "Ошибка") ev.2) (_log (py "❌ Ошибка: " ++ ev.2) a)))
    else a.
Proof.
  destruct ev as [kind payload]. unfold handle_event. cbn [fst snd].
  repeat (case_bool_decide; [by rewrite decide_True by done|rewrite decide_False by done]).
  done.
Qed.




(** What handling one event may change: the entries, the threads, the
    queue and the timer calls never; the text only grows; the bar stays
    within 0 and 100; the flag is never raised; a box is shown for a done
    or error event and for no other. *)
Lemma handle_event_frame ev a :
  let a' := handle_event ev a in
  ent_url a' = ent_url a ∧ ent_out a' = ent_out a ∧ ent_name a' = ent_name a ∧
  threads a' = threads a ∧ after_calls a' = after_calls a ∧ _events a' = _events a ∧
  txt a `prefix_of` txt a' ∧
  ((0 <= pb_value a <= 100)%Z → (0 <= pb_value a' <= 100)%Z) ∧
  (_downloading a' = true → _downloading a = true) ∧
  (terminal ev → _downloading a' = false) ∧
  (¬ terminal ev → _downloading a' = _downloading a) ∧
  length (dialogs a') = (length (dialogs a) + if decide (terminal ev) then 1 else 0)%nat.
Proof.
  cbv zeta. rewrite handle_event_cases. destruct ev as [kind payload].
  unfold terminal. cbn [fst snd].
  destruct (decide (kind = py "status")) as [->|_].
  { rewrite decide_False by (intros [H|H]; vm_compute in H; discriminate).
    cbn [_set_status _log set_txt set_title ent_url ent_out ent_name threads after_calls
         _events txt pb_value _downloading dialogs].
    repeat split; try done; try lia.
    - by apply prefix_app_r.
    - intros [H|H]; vm_compute in H; discriminate. }
  destruct (decide (kind = py "progress")) as [->|_].
  { rewrite decide_False by (intros [H|H]; vm_compute in H; discriminate).
    destruct (int_of_str payload);
      cbn [set_pb ent_url ent_out ent_name threads after_calls
           _events txt pb_value _downloading dialogs];
      repeat split; try done; try lia;
      intros [H|H]; vm_compute in H; discriminate. }
  destruct (decide (kind = py "log")) as [->|_].
  { rewrite decide_False by (intros [H|H]; vm_compute in H; discriminate).
    cbn [_log set_txt ent_url ent_out ent_name threads after_calls
         _events txt pb_value _downloading dialogs].
    repeat split; try done; try lia.
    - by apply prefix_app_r.
    - intros [H|H]; vm_compute in H; discriminate. }
  destruct (decide (kind = py "done")) as [Hk|Hnd].
  { rewrite decide_True by (by left).
    cbn [_log set_txt set_title set_pb set_downloading show ent_url ent_out ent_name threads
         after_calls _events txt pb_value _downloading dialogs].
    repeat split; try done; try lia.
    - by apply prefix_app_r.
    - intros H; by destruct H; left.
    - rewrite length_app. cbn [length]. lia. }
  destruct (decide (kind = py "error")) as [Hk|Hne].
  { rewrite decide_True by (by right).
    cbn [_log set_txt set_title set_pb set_downloading show ent_url ent_out ent_name threads
         after_calls _events txt pb_value _downloading dialogs].
    repeat split; try done; try lia.
    - by apply prefix_app_r.
    - intros H; by destruct H; right.
    - rewrite length_app. cbn [length]. lia. }
  rewrite decide_False by (by intros [H|H]).
  repeat split; try done; try lia. by intros [H|H].
Qed.

(** X20: One call of [_poll_queue] empties the queue and schedules exactly
    one next call, [POLL_MS] later; it leaves the entries and the threads
    alone, only adds to the text, keeps the bar within 0 and 100, never
    raises the flag, and shows one box for each done or error event that
    was queued. *)
Theorem poll_queue_effects a :
  let a' := _poll_queue a in
  _events a' = [] ∧ after_calls a' = after_calls a ++ [POLL_MS] ∧
  ent_url a' = ent_url a ∧ ent_out a' = ent_out a ∧ ent_name a' = ent_name a ∧
  threads a' = threads a ∧
  txt a `prefix_of` txt a' ∧
  ((0 <= pb_value a <= 100)%Z → (0 <= pb_value a' <= 100)%Z) ∧
  (_downloading a' = true → _downloading a = true) ∧
  length (dialogs a') = (length (dialogs a) + length (filter terminal (_events a)))%nat.
Proof.
  cbv zeta. unfold _poll_queue.
  cbn [after _events after_calls ent_url ent_out ent_name threads txt pb_value
       _downloading dialogs].
  rewrite foldl_handle_events.
  assert (∀ q b,
    let b' := foldl (λ a ev, handle_event ev a) b q in
    after_calls b' = after_calls b ∧
    ent_url b' = ent_url b ∧ ent_out b' = ent_out b ∧ ent_name b' = ent_name b ∧
    threads b' = threads b ∧ txt b `prefix_of` txt b' ∧
    ((0 <= pb_value b <= 100)%Z → (0 <= pb_value b' <= 100)%Z) ∧
    (_downloading b' = true → _downloading b = true) ∧
    length (dialogs b') = (length (dialogs b) + length (filter terminal q))%nat) as Hfold.
  { induction q as [|ev q IH]; intros b; cbv zeta.
    - cbn [foldl]. rewrite filter_nil. cbn [length]. split_and!; (done || lia).
    - cbn [foldl]. specialize (IH (handle_event ev b)). cbv zeta in IH.
      destruct IH as (I1 & I2 & I3 & I4 & I5 & I6 & I7 & I8 & I9).
      destruct (handle_event_frame ev b)
        as (F1 & F2 & F3 & F4 & F5 & _ & F6 & F7 & F8 & _ & _ & F9).
      rewrite I1, I2, I3, I4, I5, I9, F1, F2, F3, F4, F5, F9.
      split_and!; try done.
      + by etrans.
      + tauto.
      + tauto.
      + rewrite filter_cons. destruct (decide (terminal ev)); cbn [length]; lia. }
  destruct (Hfold (_events a) (set_events [] a))
    as (H1 & H2 & H3 & H4 & H5 & H6 & H7 & H8 & H9).
  cbn [set_events after_calls ent_url ent_out ent_name threads txt pb_value
       _downloading dialogs _events] in *.
  rewrite H1, H2, H3, H4, H5, H9. by split_and!.
Qed.

(** ** One download at a time *)

Section Life_properties.
Context {E : Env}.

Lemma alive_app s rs1 r rs2 :
  runs s = rs1 ++ r :: rs2 →
  alive s = filter (λ r, r ≠ []) rs1 ++ (if decide (r ≠ []) then [r] else [])
              ++ filter (λ r, r ≠ []) rs2.
Proof.
  intros Hr. unfold alive. rewrite Hr, filter_app, filter_cons. by destruct (decide (r ≠ [])).
Qed.

Lemma run_shape_cons ev rest :
  run_shape (ev :: rest) →
  (rest = [] ∧ terminal ev) ∨ (rest ≠ [] ∧ ¬ terminal ev ∧ run_shape rest).
Proof.
  intros (pre & final & Heq & Hf & Hpre). destruct pre as [|x pre].
  - left. injection Heq as -> ->. done.
  - right. injection Heq as -> ->. apply Forall_cons in Hpre as [Hx Hpre].
    split; [by destruct pre|]. split; [done|]. by exists pre, final.
Qed.

Lemma run_shape_snoc q ev :
  Forall (λ ev, ¬ terminal ev) q → terminal ev → run_shape (q ++ [ev]).
Proof. intros Hq Hev. by exists q, ev. Qed.

Lemma foldl_handle_flag q a :
  Forall (λ ev, ¬ terminal ev) q →
  _downloading (foldl (λ a ev, handle_event ev a) a q) = _downloading a.
Proof.
  intros Hq. revert a. induction Hq as [|ev q Hev _ IH]; intros a; [done|].
  cbn [foldl]. rewrite IH.
  by destruct (handle_event_frame ev a) as (_ & _ & _ & _ & _ & _ & _ & _ & _ & _ & H & _); apply H.
Qed.

Lemma poll_queue_flag_kept a :
  Forall (λ ev, ¬ terminal ev) (_events a) →
  _downloading (_poll_queue a) = _downloading a.
Proof.
  intros Hq. unfold _poll_queue. cbn [after _downloading].
  by rewrite foldl_handle_flag.
Qed.

Lemma poll_queue_flag_down a :
  run_shape (_events a) → _downloading (_poll_queue a) = false.
Proof.
  intros (pre & final & Heq & Hf & _).
  destruct (poll_queue_last a pre final Heq) as [a' ->]. cbn [after _downloading].
  by destruct (handle_event_frame final a') as (_ & _ & _ & _ & _ & _ & _ & _ & _ & H & _); apply H.
Qed.

Lemma start_download_cases a w a' w' :
  _start_download a w = Ok (a', w') →
  (_events a' = _events a ∧ _downloading a' = _downloading a ∧ threads a' = threads a) ∨
  (_events a' = _events a ∧ _downloading a = false ∧ _downloading a' = true ∧
   ∃ req, threads a' = threads a ++ [req]).
Proof.
  unfold _start_download. destruct (_downloading a) eqn:Hb.
  - intros [= <- <-]. left. cbn [show _events _downloading threads]. by rewrite Hb.
  - destruct (PyStr.strip (ent_url a)) as [|c u].
    + intros [= <- <-]. left. cbn [show _events _downloading threads]. by rewrite Hb.
    + destruct (mkdir _ w) as [w1|e]; [|done]. cbn [mbind result_bind].
      intros [= <- <-]. right.
      cbn [start_thread set_downloading set_txt set_pb _events _downloading threads].
      split; [done|]. split; [done|]. split; [done|]. by eexists.
Qed.

Lemma single_run_step s s' : life_step s s' → single_run s → single_run s'.
Proof.
  intros Hstep. destruct Hstep as [a w rs u o n|a w rs a' w' wr Hst|a w rs1 ev rest rs2|a w rs|a w w' rs];
    unfold single_run, alive; cbn [gui runs fs set_entries set_events _events _downloading].
  - done.
  - destruct (start_download_cases a w a' w' Hst) as [(Hq & Hb & Ht)|(Hq & Hb & Hb' & req & Ht)].
    + rewrite Hq, Hb, Ht, drop_all. cbn [map]. by rewrite app_nil_r.
    + rewrite Hq, Hb, Hb', Ht, drop_app_length. cbn [map].
      intros [Hal Hev]. right. exists (emitted (worker req wr)).
      destruct (worker_run_shape req wr) as (_ & pre & final & Hw & Hf & Hpre).
      rewrite filter_app, Hal, Hev. cbn [app].
      rewrite filter_cons_True, filter_nil; [|rewrite Hw; by destruct pre].
      split; [done|]. split; [by exists pre, final|constructor].
  - rewrite !filter_app, !filter_cons.
    rewrite decide_True by done.
    destruct (_downloading a).
    + intros [[Hal _]|(r & Hal & Hr & Hq)].
      { by destruct (filter _ rs1). }
      assert (filter (λ r, r ≠ []) rs1 = [] ∧ r = ev :: rest ∧ filter (λ r, r ≠ []) rs2 = [])
        as (H1 & -> & H2).
      { destruct (filter _ rs1) as [|x l].
        - cbn [app] in Hal. by injection Hal as -> ->.
        - destruct l; [|done]. cbn [app] in Hal. done. }
      rewrite H1, H2. cbn [app].
      destruct (run_shape_cons ev rest Hr) as [[-> Hev]|(Hne & Hev & Hrest)].
      * left. rewrite decide_False by (by intros ?). split; [done|]. by apply run_shape_snoc.
      * right. exists rest. rewrite decide_True by done. split; [done|]. split; [done|].
        apply Forall_app. split; [done|]. by constructor.
    + intros [Hal _]. by destruct (filter _ rs1).
  - destruct (_downloading a) eqn:Hb.
    + intros [[Hal Hq]|(r & Hal & Hr & Hq)].
      * rewrite poll_queue_flag_down by done. split; [done|apply poll_queue_events].
      * rewrite poll_queue_flag_kept, Hb by done. right. exists r.
        rewrite poll_queue_events. split; [done|]. split; [done|constructor].
    + intros [Hal Hq]. rewrite poll_queue_flag_kept, Hb by (rewrite Hq; constructor).
      split; [done|apply poll_queue_events].
  - done.
Qed.

(** X21: From the start of the application on, at most one worker thread is
    alive at any time, and none is while the flag is down; with the flag
    down the queue is empty as well. *)
Theorem single_in_flight w s :
  rtc life_step (mkLife App_init w []) s →
  (length (alive s) <= 1)%nat ∧
  (_downloading (gui s) = false → alive s = [] ∧ _events (gui s) = []).
Proof.
  intros Hsteps.
  assert (single_run s) as Hinv.
  { revert s Hsteps. apply (rtc_ind_r _ (mkLife App_init w [])).
    - by split.
    - intros s1 s2 _ Hstep IH. by apply (single_run_step s1 s2). }
  unfold single_run in Hinv. destruct (_downloading (gui s)).
  - split; [|done]. destruct Hinv as [[-> _]|(r & -> & _)]; cbn [length]; lia.
  - destruct Hinv as [Hal Hq]. split; [rewrite Hal; cbn [length]; lia|done].
Qed.

End Life_properties.

Lemma single_in_flight_witness :
  ∃ s, rtc (@life_step demo_env) (@mkLife demo_env App_init [] []) s ∧
       (length (@alive demo_env s) <= 1)%nat.
Proof.
  set (a1 := set_entries (py "https://example.org/v") (py "downloads") (py "clip") App_init).
  eassert (@_start_download demo_env a1 [] = Ok (_, _)) as Hst
    by (vm_compute; reflexivity).
  assert (rtc (@life_step demo_env) (@mkLife demo_env App_init [] [])
              (@mkLife demo_env a1 [] [])) as H1.
  { apply rtc_once. apply (@life_type demo_env). }
  pose proof (rtc_r _ _ _ H1 (@life_click demo_env a1 [] [] _ _ [] Hst)) as Hr.
  eexists. split; [exact Hr|]. exact (proj1 (@single_in_flight demo_env _ _ Hr)).
Defined.
(** ** More on errors and edges *)

Section Resolve_extras.
Context {E : Env}.

(** X22: When the first requested download is not a dictionary the path
    resolution raises at [.get]; it does not fall back on [_filename]. *)
Theorem download_resolve_bad_first opts d v l :
  d !! "requested_downloads" = Some (VList (v :: l)) → (∀ e, v ≠ VDict e) →
  download_resolve opts (VDict d) = Raise (PyVal.no_attribute v "get").
Proof.
  intros Hd Hv. unfold download_resolve. unfold PyVal.get. rewrite Hd.
  cbn [default from_option id PyVal.truthy PyVal.item0 mbind result_bind].
  destruct v; try done. by destruct (Hv d0).
Qed.

End Resolve_extras.

Lemma download_resolve_bad_first_witness :
  @download_resolve (scripted [] (Ok VNone) []) demo_opts
     (VDict (list_to_map [("requested_downloads", VList [VStr (py "clip.mkv")]);
                          ("_filename", VStr (py "clip.mkv"))]))
  = Raise (Exn AttributeError (py "'str' object has no attribute 'get'")).
Proof.
  refine (eq_trans (@download_resolve_bad_first (scripted [] (Ok VNone) []) demo_opts _
                      (VStr (py "clip.mkv")) [] _ _) _).
  - by vm_compute.
  - by intros e.
  - by vm_compute.
Defined.



(** X24: A name that is a dot followed by letters has no extension for
    [os.path.splitext]: it is kept whole and .mp4 is added to it. *)
Theorem force_mp4_name_hidden ext b :
  clean ext → OsPath.extsep ∉ ext → last (OsPath.extsep :: ext) = Some b →
  PyStr.isspace b = false →
  force_mp4_name (OsPath.extsep :: ext) = OsPath.extsep :: ext ++ py ".mp4".
Proof.
  intros Hc Hd Hb Hsb. rewrite force_mp4_name_unfold.
  rewrite (sanitize_filename_fixed _ OsPath.extsep b); try done.
  - change (OsPath.extsep :: ext) with ([] ++ OsPath.extsep :: ext).
    rewrite splitext_last_dot; [done|apply not_elem_of_nil|by apply clean_no_sep|done].
  - by constructor.
Qed.

Lemma force_mp4_name_hidden_witness :
  force_mp4_name (OsPath.extsep :: py "mkv") = OsPath.extsep :: py "mkv" ++ py ".mp4".
Proof.
  apply (force_mp4_name_hidden (py "mkv") 118%N).
  - apply clean_check. by vm_compute.
  - apply not_elem_check. by vm_compute.
  - by vm_compute.
  - by vm_compute.
Defined.
